(** * Phantom wallet integration: the provider locator, the connection
      adapter, the event relay and the asset-watch helper

    Two source files are embedded here:
    - the Phantom Wallet Integration Module, imported as [./phantomWallet] by
      [src/phantomWalletTest.js] (module [PhantomWallet] below): free
      functions that look the injected provider up on every call;
    - [src/walletIntegration.ts] (module [PhantomWalletAdapter] below), a
      class that caches the connection state in two private fields.

    JavaScript is embedded shallowly: a function of the source is a
    computation in the monad [M], which threads the [World] (the global
    [window], the objects it refers to, the adapter instance and the list of
    observable effects) and either completes normally or throws. *)

From Stdlib Require Import ZArith String List Bool Lia.
From stdpp Require Import base list.
Import ListNotations.
Open Scope string_scope.

(** ** Values *)

(** A [PublicKey] of [@solana/web3.js]; the only thing the code does with one
    is [toString()], its base58 rendering. *)
Record PublicKey := { base58 : string }.

Definition toString (pk : PublicKey) : string := base58 pk.

(** Functions are compared by reference by [on]/[removeListener].  A function
    handed in by a caller is opaque and identified by [UserFn id]; the three
    arrow functions created by the adapter's [_registerEvents] are named. *)
Inductive Callback :=
| UserFn (id : nat)
| LoadHandler
| AccountChangedHandler
| DisconnectHandler.

Definition Callback_eqb (c d : Callback) : bool :=
  match c, d with
  | UserFn i, UserFn j => Nat.eqb i j
  | LoadHandler, LoadHandler => true
  | AccountChangedHandler, AccountChangedHandler => true
  | DisconnectHandler, DisconnectHandler => true
  | _, _ => false
  end.

(** What a [throw] or a rejected promise carries. *)
Inductive Thrown :=
| Error (message : string)            (* new Error(message) *)
| ReferenceError (message : string)   (* use of an undeclared global *)
| Rejection (code : Z) (message : string). (* whatever the provider rejected with *)

(** A reference as the locators return it. *)
Inductive Ref :=
| Null
| Undefined
| Obj (address : nat).

Definition truthy (r : Ref) : bool :=
  match r with Obj _ => true | _ => false end.

(** ** The injected provider (external collaborator)

    The object a wallet extension places on [window].  Its properties are
    read by the code; its methods [connect], [disconnect], [request] are
    answered by the extension and the end user, so every call takes the
    provider's [Turn] as an argument.  [on] and [removeListener] are those of
    an event emitter; the two removal disciplines in use (every matching
    registration, as eventemitter3 does, or the most recent one, as Node's
    [events] does) are both covered. *)
Inductive Removal := RemoveAllMatching | RemoveLastMatching.

Module Provider.
Record t := Build {
  isPhantom : bool;
  isConnected : bool;
  publicKey : option PublicKey;
  listeners : list (string * Callback);
  removal : Removal
}.

Definition with_listeners (l : list (string * Callback)) (p : t) : t :=
  Build (isPhantom p) (isConnected p) (publicKey p) l (removal p).
End Provider.

Definition registered (event : string) (cb : Callback) (r : string * Callback) : bool :=
  String.eqb event (fst r) && Callback_eqb cb (snd r).

Fixpoint remove_last (event : string) (cb : Callback) (l : list (string * Callback))
  : list (string * Callback) :=
  match l with
  | [] => []
  | r :: l' =>
      if existsb (registered event cb) l' then r :: remove_last event cb l'
      else if registered event cb r then l' else r :: l'
  end.

Definition remove_all (event : string) (cb : Callback) (l : list (string * Callback))
  : list (string * Callback) :=
  List.filter (fun r => negb (registered event cb r)) l.

Definition on (event : string) (cb : Callback) (p : Provider.t) : Provider.t :=
  Provider.with_listeners (Provider.listeners p ++ [(event, cb)]) p.

Definition remove (policy : Removal) (event : string) (cb : Callback)
    (l : list (string * Callback)) : list (string * Callback) :=
  match policy with
  | RemoveAllMatching => remove_all event cb l
  | RemoveLastMatching => remove_last event cb l
  end.

Definition removeListener (event : string) (cb : Callback) (p : Provider.t) : Provider.t :=
  Provider.with_listeners (remove (Provider.removal p) event cb (Provider.listeners p)) p.

(** How a pending provider promise settles, and the values the provider
    leaves in its own [isConnected] and [publicKey] properties meanwhile.
    Events the provider emits are separate steps ([emit] below). *)
Inductive Settled (A : Type) :=
| Resolves (value : A)
| Rejects (reason : Thrown).
Arguments Resolves {A} value.
Arguments Rejects {A} reason.

Record Turn (A : Type) := {
  settles : Settled A;
  leaves : Provider.t -> bool * option PublicKey  (* [isConnected], [publicKey] afterwards *)
}.
Arguments settles {A} _.
Arguments leaves {A} _ _.

Definition after {A} (turn : Turn A) (p : Provider.t) : Provider.t :=
  Provider.Build (Provider.isPhantom p) (fst (leaves turn p)) (snd (leaves turn p))
    (Provider.listeners p) (Provider.removal p).

Record ConnectResponse := { response_publicKey : PublicKey }.

(** ** The global browsing context *)

(** [window.phantom]: the property may be missing, hold [null]/[undefined],
    or hold the namespace object whose [solana] field is the provider. *)
Inductive PhantomSlot :=
| NoProperty
| Nullish
| Namespace (solana : Ref).

Record Window := {
  phantom : PhantomSlot;
  solana : Ref;
  load_listeners : list Callback
}.

(** Observable effects, oldest first. *)
Inductive Effect :=
| ConsoleLog (line : string)
| ConsoleError (line : string)
| WindowOpen (url target : string)
| CallConnect (provider : nat)
| CallDisconnect (provider : nat)
| CallRequest (provider : nat) (method type address : string)
| CallSign (provider : nat) (method : string)
| Invoke (cb : Callback) (arg : option PublicKey).

(** The private fields of a [PhantomWalletAdapter]. *)
Record Adapter := {
  _publicKey : option PublicKey;
  _connected : bool;
  _onDisconnect : option nat  (* the caller's function, [UserFn id] *)
}.

(** [window] is [None] where the global is not declared (server-side
    rendering, or before the document exists). *)
Record World := {
  window : option Window;
  heap : list Provider.t;
  this : Adapter;
  trace : list Effect
}.

(** ** The monad of JavaScript computations *)

Inductive Completion (A : Type) :=
| Normal (value : A)
| Throw (e : Thrown).
Arguments Normal {A} value.
Arguments Throw {A} e.

Definition M (A : Type) : Type := World -> Completion A * World.

Definition ret {A} (a : A) : M A := fun w => (Normal a, w).

Definition throw {A} (e : Thrown) : M A := fun w => (Throw e, w).

Definition bind {A B} (m : M A) (k : A -> M B) : M B :=
  fun w => match m w with
           | (Normal a, w') => k a w'
           | (Throw e, w') => (Throw e, w')
           end.

Declare Scope js_scope.
Delimit Scope js_scope with js.
Notation "x <- m ;; k" := (bind m (fun x => k))
  (at level 100, m at next level, k at level 200, right associativity) : js_scope.
Notation "m ;; k" := (bind m (fun _ => k))
  (at level 100, k at level 200, right associativity) : js_scope.
Open Scope js_scope.

(** [try { body } catch (error) { handler(error) }] *)
Definition try_catch {A} (body : M A) (handler : Thrown -> M A) : M A :=
  fun w => match body w with
           | (Normal a, w') => (Normal a, w')
           | (Throw e, w') => handler e w'
           end.

Definition effect (e : Effect) : M unit :=
  fun w => (Normal tt, Build_World (window w) (heap w) (this w) (trace w ++ [e])).

Definition read_window : M (option Window) := fun w => (Normal (window w), w).

Definition read_provider (a : nat) : M (option Provider.t) :=
  fun w => (Normal (heap w !! a), w).

Definition update_provider (a : nat) (f : Provider.t -> Provider.t) : M unit :=
  fun w => (Normal tt, Build_World (window w) (alter f a (heap w)) (this w) (trace w)).

Definition read_this : M Adapter := fun w => (Normal (this w), w).

Definition write_this (a : Adapter) : M unit :=
  fun w => (Normal tt, Build_World (window w) (heap w) a (trace w)).

Definition update_window (f : Window -> Window) : M unit :=
  fun w => (Normal tt, Build_World (f <$> window w) (heap w) (this w) (trace w)).

(** [await provider.method(...)]: the call is recorded, the provider does
    what it does to itself, and the promise settles. *)
Definition await {A} (call : Effect) (a : nat) (turn : Turn A) : M A :=
  effect call ;;
  update_provider a (after turn) ;;
  match settles turn with
  | Resolves v => ret v
  | Rejects e => throw e
  end.

(** Property reads on a reference; a property of [null]/[undefined] reached
    through [?.] is [undefined], which is falsy. *)
Definition read_isConnected (r : Ref) : M bool :=
  match r with
  | Obj a => p <- read_provider a ;;
             ret (match p with Some p => Provider.isConnected p | None => false end)
  | _ => ret false
  end.

Definition read_isPhantom (r : Ref) : M bool :=
  match r with
  | Obj a => p <- read_provider a ;;
             ret (match p with Some p => Provider.isPhantom p | None => false end)
  | _ => ret false
  end.

Definition read_publicKey (r : Ref) : M (option PublicKey) :=
  match r with
  | Obj a => p <- read_provider a ;;
             ret (match p with Some p => Provider.publicKey p | None => None end)
  | _ => ret None
  end.

(** [window.phantom?.solana] *)
Definition phantom_solana (win : Window) : Ref :=
  match phantom win with
  | Namespace r => r
  | _ => Undefined
  end.

(** [window.open(url, target)]; naming [window] where it is not declared is a
    [ReferenceError]. *)
Definition window_open (url target : string) : M unit :=
  win <- read_window ;;
  match win with
  | Some _ => effect (WindowOpen url target)
  | None => throw (ReferenceError "window is not defined")
  end.

(** An unsigned or signed transaction: an opaque payload to this code. *)
Definition Transaction : Type := string.

(** ** The Phantom Wallet Integration Module ([phantomWallet.js]) *)
Module PhantomWallet.

Definition DEBUG : bool := true.

(** [debugLog(message, data)]; the line printed is recorded, the optional
    [data] object printed after it is not. *)
Definition debugLog (message : string) : M unit :=
  if DEBUG then effect (ConsoleLog ("[PHANTOM] " ++ message)) else ret tt.

Definition isPhantomInstalled : M bool :=
  win <- read_window ;;
  match win with
  | Some win =>
      isInstalled <- read_isPhantom (phantom_solana win) ;;
      debugLog ("Phantom installed: " ++ (if isInstalled then "true" else "false")) ;;
      ret isInstalled
  | None => ret false
  end.

Definition getPhantomProvider : M Ref :=
  win <- read_window ;;
  match win with
  | Some win =>
      if truthy (phantom_solana win) then
        debugLog "Phantom provider retrieved" ;;
        ret (phantom_solana win)
      else
        debugLog "Phantom provider not found" ;;
        ret Null
  | None =>
      debugLog "Phantom provider not found" ;;
      ret Null
  end.

Definition connectPhantomWallet (turn : Turn ConnectResponse) : M string :=
  try_catch
    (provider <- getPhantomProvider ;;
     match provider with
     | Obj a =>
         debugLog "Requesting connection to Phantom wallet..." ;;
         response <- await (CallConnect a) a turn ;;
         debugLog "Connection successful!" ;;
         ret (toString (response_publicKey response))
     | _ =>
         debugLog "Phantom wallet not installed, opening installation page" ;;
         window_open "https://phantom.app/" "_blank" ;;
         throw (Error "Phantom wallet not installed. Please install it from phantom.app")
     end)
    (fun error =>
       debugLog "Error connecting to Phantom wallet:" ;;
       throw error).

Definition disconnectPhantomWallet (turn : Turn unit) : M unit :=
  try_catch
    (provider <- getPhantomProvider ;;
     match provider with
     | Obj a =>
         debugLog "Disconnecting from Phantom wallet..." ;;
         await (CallDisconnect a) a turn ;;
         debugLog "Disconnected from Phantom wallet"
     | _ => ret tt
     end)
    (fun error =>
       debugLog "Error disconnecting from Phantom wallet:" ;;
       throw error).

Definition addTokenToPhantomWallet (tokenAddress : string) (turn : Turn unit) : M unit :=
  try_catch
    (provider <- getPhantomProvider ;;
     match provider with
     | Obj a =>
         debugLog ("Adding token to wallet: " ++ tokenAddress) ;;
         await (CallRequest a "wallet_watchAsset" "SPL" tokenAddress) a turn ;;
         debugLog "Token added to wallet:"
     | _ => throw (Error "Phantom wallet not installed")
     end)
    (fun error =>
       debugLog "Error adding token to wallet:" ;;
       throw error).

(** The [callbacks] object; a missing or falsy member is [None].  The object
    is only read by this module, so it is taken by value. *)
Record Callbacks := {
  onConnect : option Callback;
  onDisconnect : option Callback;
  onAccountChange : option Callback
}.

(** The two closures [setupPhantomEventListeners] can return: [() => {}],
    or the one that captured [provider] and the [callbacks] object.  The
    closure reads the object's members when it is called; [callbacks] is
    the object as it is then, which is the object the subscription was given
    unless the caller has assigned one of its members since. *)
Inductive Teardown :=
| Noop
| RemoveListeners (provider : nat) (callbacks : Callbacks).

Definition setupPhantomEventListeners (callbacks : Callbacks) : M Teardown :=
  provider <- getPhantomProvider ;;
  match provider with
  | Obj a =>
      debugLog "Setting up Phantom wallet event listeners" ;;
      match onConnect callbacks with
      | Some cb => update_provider a (on "connect" cb) ;;
                   debugLog "Connect event listener added"
      | None => ret tt
      end ;;
      match onDisconnect callbacks with
      | Some cb => update_provider a (on "disconnect" cb) ;;
                   debugLog "Disconnect event listener added"
      | None => ret tt
      end ;;
      match onAccountChange callbacks with
      | Some cb => update_provider a (on "accountChanged" cb) ;;
                   debugLog "Account change event listener added"
      | None => ret tt
      end ;;
      ret (RemoveListeners a callbacks)
  | _ =>
      debugLog "Cannot set up event listeners: Phantom wallet not installed" ;;
      ret Noop
  end.

(** Calling the returned function. *)
Definition teardown (f : Teardown) : M unit :=
  match f with
  | Noop => ret tt
  | RemoveListeners a callbacks =>
      debugLog "Removing Phantom wallet event listeners" ;;
      match onConnect callbacks with
      | Some cb => update_provider a (removeListener "connect" cb)
      | None => ret tt
      end ;;
      match onDisconnect callbacks with
      | Some cb => update_provider a (removeListener "disconnect" cb)
      | None => ret tt
      end ;;
      match onAccountChange callbacks with
      | Some cb => update_provider a (removeListener "accountChanged" cb)
      | None => ret tt
      end
  end.

Definition isPhantomConnected : M bool :=
  provider <- getPhantomProvider ;;
  connected <- read_isConnected provider ;;
  debugLog ("Wallet connected: " ++ (if connected then "true" else "false")) ;;
  ret connected.

(** [provider?.publicKey?.toString() || null]: the empty string is falsy. *)
Definition getConnectedPublicKey : M (option string) :=
  provider <- getPhantomProvider ;;
  key <- read_publicKey provider ;;
  let publicKey :=
    match key with
    | Some pk => if String.eqb (toString pk) "" then None else Some (toString pk)
    | None => None
    end in
  debugLog ("Connected public key: " ++
            match publicKey with Some s => s | None => "null" end) ;;
  ret publicKey.

Definition signTransaction (transaction : Transaction) (turn : Turn Transaction)
  : M Transaction :=
  try_catch
    (provider <- getPhantomProvider ;;
     match provider with
     | Obj a =>
         debugLog "Signing transaction..." ;;
         signedTransaction <- await (CallSign a "signTransaction") a turn ;;
         debugLog "Transaction signed successfully" ;;
         ret signedTransaction
     | _ => throw (Error "Phantom wallet not installed")
     end)
    (fun error =>
       debugLog "Error signing transaction:" ;;
       throw error).

(** What [provider.signAndSendTransaction] resolves with. *)
Record SendResponse := { signature : string }.

Definition signAndSendTransaction (transaction : Transaction) (turn : Turn SendResponse)
  : M string :=
  try_catch
    (provider <- getPhantomProvider ;;
     match provider with
     | Obj a =>
         debugLog "Signing and sending transaction..." ;;
         response <- await (CallSign a "signAndSendTransaction") a turn ;;
         debugLog "Transaction sent successfully:" ;;
         ret (signature response)
     | _ => throw (Error "Phantom wallet not installed")
     end)
    (fun error =>
       debugLog "Error signing and sending transaction:" ;;
       throw error).

End PhantomWallet.

(** ** [src/walletIntegration.ts] *)
Module PhantomWalletAdapter.

(** [console.log(text, ...)] and [console.error(text, ...)]: the text is
    recorded, the values printed after it are not. *)
Definition console_log (text : string) : M unit := effect (ConsoleLog text).
Definition console_error (text : string) : M unit := effect (ConsoleError text).

Definition set_publicKey (k : option PublicKey) (a : Adapter) : Adapter :=
  {| _publicKey := k; _connected := _connected a; _onDisconnect := _onDisconnect a |}.

Definition set_connected (c : bool) (a : Adapter) : Adapter :=
  {| _publicKey := _publicKey a; _connected := c; _onDisconnect := _onDisconnect a |}.

Definition set_onDisconnect (f : option nat) (a : Adapter) : Adapter :=
  {| _publicKey := _publicKey a; _connected := _connected a; _onDisconnect := f |}.

Definition assign (f : Adapter -> Adapter) : M unit :=
  a <- read_this ;; write_this (f a).

(** [get publicKey()] and [get connected()] *)
Definition publicKey : M (option PublicKey) :=
  a <- read_this ;; ret (_publicKey a).

Definition connected : M bool :=
  a <- read_this ;; ret (_connected a).

Definition _getProvider : M Ref :=
  win <- read_window ;;
  match win with
  | None => throw (ReferenceError "window is not defined")
  | Some win =>
      match phantom win with
      | NoProperty =>
          (* fallback for older versions of Phantom *)
          flag <- read_isPhantom (solana win) ;;
          if flag then ret (solana win) else ret Null
      | _ => ret (phantom_solana win)
      end
  end.

Definition _checkForPhantom : M bool :=
  provider <- _getProvider ;;
  ret (truthy provider).

(** [this._onDisconnect()].  The caller's function is opaque: the call is
    recorded, and it completes as [completion] says, returning ([None]) or
    throwing a value. *)
Definition call_onDisconnect (completion : option Thrown) (id : nat) : M unit :=
  effect (Invoke (UserFn id) None) ;;
  match completion with
  | None => ret tt
  | Some e => throw e
  end.

(** [_handleDisconnect()], for a callback that completes as [completion]
    says. *)
Definition _handleDisconnect_when (completion : option Thrown) : M unit :=
  assign (set_publicKey None) ;;
  assign (set_connected false) ;;
  a <- read_this ;;
  match _onDisconnect a with
  | Some id => call_onDisconnect completion id
  | None => ret tt
  end ;;
  console_log "Disconnected from Phantom wallet".

(** Where nothing depends on it, the callback is taken to return. *)
Definition _handleDisconnect : M unit := _handleDisconnect_when None.

Definition _checkConnection : M unit :=
  provider <- _getProvider ;;
  isConnected <- read_isConnected provider ;;
  if truthy provider && isConnected then
    key <- read_publicKey provider ;;
    assign (set_publicKey key) ;;
    assign (set_connected true) ;;
    console_log "Already connected to Phantom wallet:"
  else ret tt.

(** The listener of ['accountChanged'] installed by [_registerEvents]. *)
Definition accountChanged (publicKey : option PublicKey) : M unit :=
  match publicKey with
  | Some pk =>
      assign (set_publicKey (Some pk)) ;;
      console_log "Account changed:"
  | None => _handleDisconnect
  end.

Definition _registerEvents : M unit :=
  win <- read_window ;;
  match win with
  | Some _ =>
      update_window (fun win =>
        {| phantom := phantom win; solana := solana win;
           load_listeners := load_listeners win ++ [LoadHandler] |}) ;;
      provider <- _getProvider ;;
      match provider with
      | Obj a =>
          update_provider a (on "accountChanged" AccountChangedHandler) ;;
          update_provider a (on "disconnect" DisconnectHandler)
      | _ => ret tt
      end
  | None => ret tt
  end.

(** [new PhantomWalletAdapter()].  A [World] carries the fields of one
    adapter object, the one the module keeps ([getPhantomWallet]); the
    listeners registered here are named, not tied to an object, so a page
    that constructs a second adapter on the same provider is described only
    as far as the fields of the latest one go ([at_most_one_adapter]). *)
Definition constructor : M unit :=
  write_this {| _publicKey := None; _connected := false; _onDisconnect := None |} ;;
  _checkForPhantom ;;
  _registerEvents.

Definition connect (turn : Turn ConnectResponse) : M PublicKey :=
  try_catch
    (provider <- _getProvider ;;
     match provider with
     | Obj a =>
         response <- await (CallConnect a) a turn ;;
         let publicKey := response_publicKey response in
         assign (set_publicKey (Some publicKey)) ;;
         assign (set_connected true) ;;
         console_log "Connected to Phantom wallet:" ;;
         ret publicKey
     | _ =>
         throw (Error "Phantom wallet not installed. Please install Phantom wallet extension.")
     end)
    (fun error =>
       console_error "Error connecting to Phantom wallet:" ;;
       throw error).

(** [disconnect()], for an [onDisconnect] callback that completes as
    [completion] says. *)
Definition disconnect_when (completion : option Thrown) (turn : Turn unit) : M unit :=
  try_catch
    (provider <- _getProvider ;;
     match provider with
     | Obj a =>
         await (CallDisconnect a) a turn ;;
         _handleDisconnect_when completion
     | _ => ret tt
     end)
    (fun error =>
       console_error "Error disconnecting from Phantom wallet:" ;;
       throw error).

Definition disconnect (turn : Turn unit) : M unit := disconnect_when None turn.

Definition onDisconnect (callback : nat) : M unit :=
  assign (set_onDisconnect (Some callback)).

Definition signTransaction (transaction : Transaction) (turn : Turn Transaction)
  : M Transaction :=
  try_catch
    (provider <- _getProvider ;;
     isConnected <- connected ;;
     match provider with
     | Obj a =>
         if isConnected then await (CallSign a "signTransaction") a turn
         else throw (Error "Wallet not connected")
     | _ => throw (Error "Wallet not connected")
     end)
    (fun error =>
       console_error "Error signing transaction:" ;;
       throw error).

Definition signAllTransactions (transactions : list Transaction)
    (turn : Turn (list Transaction)) : M (list Transaction) :=
  try_catch
    (provider <- _getProvider ;;
     isConnected <- connected ;;
     match provider with
     | Obj a =>
         if isConnected then await (CallSign a "signAllTransactions") a turn
         else throw (Error "Wallet not connected")
     | _ => throw (Error "Wallet not connected")
     end)
    (fun error =>
       console_error "Error signing transactions:" ;;
       throw error).

Definition addToken (tokenAddress : string) (turn : Turn unit) : M bool :=
  try_catch
    (provider <- _getProvider ;;
     isConnected <- connected ;;
     match provider with
     | Obj a =>
         if isConnected then
           await (CallRequest a "wallet_watchAsset" "SPL" tokenAddress) a turn ;;
           console_log "Token added to wallet:" ;;
           ret true
         else throw (Error "Wallet not connected")
     | _ => throw (Error "Wallet not connected")
     end)
    (fun error =>
       console_error "Error adding token to wallet:" ;;
       throw error).

End PhantomWalletAdapter.

(** The module variable [phantomWalletInstance] is [null] or refers to the
    one adapter object, whose fields are [this]. *)
Record Integration := {
  page : World;
  phantomWalletInstance : bool
}.

(** [getPhantomWallet()]: the variable is assigned only once the constructor
    has returned. *)
Definition getPhantomWallet (s : Integration) : Completion unit * Integration :=
  if phantomWalletInstance s then (Normal tt, s)
  else
    match PhantomWalletAdapter.constructor (page s) with
    | (Normal _, w) => (Normal tt, {| page := w; phantomWalletInstance := true |})
    | (Throw e, w) => (Throw e, {| page := w; phantomWalletInstance := false |})
    end.

(** A value that is a boolean or one of [null]/[undefined], as
    [window.solana && window.solana.isPhantom] can be. *)
Inductive Value :=
| VBool (b : bool)
| VRef (r : Ref).

Definition is_truthy (v : Value) : bool :=
  match v with
  | VBool b => b
  | VRef r => truthy r
  end.

(** The [walletDebugger] object of [src/walletIntegration.ts]. *)
Module walletDebugger.

Definition logConnectionStatus : M unit :=
  _ <- PhantomWalletAdapter.connected ;;
  PhantomWalletAdapter.console_log "Wallet connected:" ;;
  _ <- PhantomWalletAdapter.publicKey ;;
  PhantomWalletAdapter.console_log "Public key:".

Definition checkPhantomInstallation : M Value :=
  win <- read_window ;;
  match win with
  | None => ret (VBool false)
  | Some win =>
      let hasPhantomProvider :=
        match phantom win with NoProperty => false | _ => true end in
      flag <- read_isPhantom (solana win) ;;
      let hasSolanaProvider :=
        if truthy (solana win) then VBool flag else VRef (solana win) in
      PhantomWalletAdapter.console_log "Phantom provider available:" ;;
      PhantomWalletAdapter.console_log "Solana provider available:" ;;
      ret (if hasPhantomProvider then VBool true else hasSolanaProvider)
  end.

Definition getWalletProvider : M Ref :=
  win <- read_window ;;
  match win with
  | None => ret Null
  | Some win =>
      match phantom win with
      | NoProperty =>
          flag <- read_isPhantom (solana win) ;;
          if flag then ret (solana win) else ret Null
      | _ => ret (phantom_solana win)
      end
  end.

End walletDebugger.

(** [addTokenToWallet(tokenMint, walletAdapter)] of the token service; of
    [walletAdapter] only the [addToken] method is used. *)
Definition addTokenToWallet (tokenMint : string) (walletAdapter_addToken : string -> M bool)
  : M bool :=
  try_catch
    (PhantomWalletAdapter.console_log "Adding token to wallet:" ;;
     walletAdapter_addToken tokenMint ;;
     ret true)
    (fun error =>
       PhantomWalletAdapter.console_error "Error adding token to wallet:" ;;
       throw error).

(** ** [src/phantomWalletTest.js] *)

(** [error.message] and [error.code === 4001] of a caught value. *)
Definition message_of (e : Thrown) : string :=
  match e with
  | Error message => message
  | ReferenceError message => message
  | Rejection _ message => message
  end.

Definition code_is_4001 (e : Thrown) : bool :=
  match e with
  | Rejection code _ => Z.eqb code 4001
  | _ => false
  end.

Module phantomWalletTest.

Definition nl : string := String (Ascii.ascii_of_nat 10) "".
Definition dq : string := String (Ascii.ascii_of_nat 34) "".

Definition console_log (text : string) : M unit := effect (ConsoleLog text).
Definition console_error (text : string) : M unit := effect (ConsoleError text).

Definition null_or (s : option string) : string :=
  match s with Some s => s | None => "null" end.

(** The [catch] block of tests 5 and 10. *)
Definition report_connection_error (error : Thrown) : M unit :=
  console_error ("   ERROR: " ++ message_of error) ;;
  if code_is_4001 error then
    console_log ("   User rejected the connection request (this is expected if you clicked "
                 ++ dq ++ "Cancel" ++ dq ++ ")")
  else console_error "   Unexpected error during connection".

(** The object literal of test 4.  Its three arrow functions are created by
    the call of [runTests]; the numbers are their identities.  Their bodies
    print one console line each and run only when the provider emits an
    event. *)
Definition callbacks (onConnect onDisconnect onAccountChange : nat) : PhantomWallet.Callbacks :=
  {| PhantomWallet.onConnect := Some (UserFn onConnect);
     PhantomWallet.onDisconnect := Some (UserFn onDisconnect);
     PhantomWallet.onAccountChange := Some (UserFn onAccountChange) |}.

(** [runTests()].  The four provider turns are those of tests 5, 7, 8 and
    10.  Events the provider emits during a turn are separate steps ([emit]);
    they reach the three arrow functions, which print a line and return. *)
Definition runTests (onConnect onDisconnect onAccountChange : nat)
    (first : Turn ConnectResponse) (watch bye : Turn unit) (again : Turn ConnectResponse)
  : M unit :=
  console_log "=== PHANTOM WALLET INTEGRATION TESTS ===" ;;
  (* Test 1 *)
  console_log (nl ++ "1. Testing Phantom installation detection:") ;;
  installed <- PhantomWallet.isPhantomInstalled ;;
  console_log ("   Phantom installed: " ++ if installed then "YES ✓" else "NO ✗") ;;
  if negb installed then
    console_error "   ERROR: Phantom wallet is not installed. Please install it from https://phantom.app/" ;;
    console_log (nl ++ "=== TESTS ABORTED ===")
  else
  (* Test 2 *)
  console_log (nl ++ "2. Testing provider retrieval:") ;;
  provider <- PhantomWallet.getPhantomProvider ;;
  console_log ("   Provider retrieved: " ++ if truthy provider then "YES ✓" else "NO ✗") ;;
  if negb (truthy provider) then
    console_error "   ERROR: Could not retrieve Phantom provider" ;;
    console_log (nl ++ "=== TESTS ABORTED ===")
  else
  (* Test 3 *)
  console_log (nl ++ "3. Testing initial connection state:") ;;
  initiallyConnected <- PhantomWallet.isPhantomConnected ;;
  console_log ("   Initially connected: " ++ if initiallyConnected then "YES" else "NO") ;;
  (if initiallyConnected then
     pubKey <- PhantomWallet.getConnectedPublicKey ;;
     console_log ("   Connected to: " ++ null_or pubKey)
   else ret tt) ;;
  (* Test 4 *)
  console_log (nl ++ "4. Setting up event listeners:") ;;
  removeListeners <- PhantomWallet.setupPhantomEventListeners
    (callbacks onConnect onDisconnect onAccountChange) ;;
  console_log "   Event listeners set up ✓" ;;
  (* Test 5 *)
  console_log (nl ++ "5. Testing wallet connection (POPUP EXPECTED):") ;;
  try_catch
    (console_log "   Attempting to connect to wallet..." ;;
     pubKey <- PhantomWallet.connectPhantomWallet first ;;
     console_log "   Connection successful! ✓" ;;
     console_log ("   Connected to: " ++ pubKey))
    report_connection_error ;;
  (* Test 6 *)
  console_log (nl ++ "6. Testing connection state after connect attempt:") ;;
  connectedAfterAttempt <- PhantomWallet.isPhantomConnected ;;
  console_log ("   Connected: " ++ if connectedAfterAttempt then "YES ✓" else "NO ✗") ;;
  (if connectedAfterAttempt then
     pubKey <- PhantomWallet.getConnectedPublicKey ;;
     console_log ("   Connected to: " ++ null_or pubKey)
   else console_log "   Not connected (user may have rejected the request)") ;;
  (* Test 7 *)
  (if connectedAfterAttempt then
     console_log (nl ++ "7. Testing adding token to wallet (POPUP EXPECTED):") ;;
     try_catch
       (let tokenAddress := "EPjFWdd5AufqSSqeM2qN1xzybapC8G4wEGGkZwyTDt1v" in
        console_log ("   Attempting to add token: " ++ tokenAddress) ;;
        PhantomWallet.addTokenToPhantomWallet tokenAddress watch ;;
        console_log "   Token add request successful! ✓")
       (fun error =>
          console_error ("   ERROR: " ++ message_of error) ;;
          if code_is_4001 error then
            console_log ("   User rejected the token add request (this is expected if you clicked "
                         ++ dq ++ "Cancel" ++ dq ++ ")")
          else console_error "   Unexpected error during token add")
   else ret tt) ;;
  (* Test 8 *)
  (if connectedAfterAttempt then
     console_log (nl ++ "8. Testing wallet disconnection:") ;;
     try_catch
       (console_log "   Attempting to disconnect from wallet..." ;;
        PhantomWallet.disconnectPhantomWallet bye ;;
        console_log "   Disconnection successful! ✓")
       (fun error => console_error ("   ERROR: " ++ message_of error))
   else ret tt) ;;
  (* Test 9 *)
  console_log (nl ++ "9. Testing connection state after disconnect:") ;;
  connectedAfterDisconnect <- PhantomWallet.isPhantomConnected ;;
  console_log ("   Connected: " ++
               if connectedAfterDisconnect then "YES (unexpected)" else "NO ✓") ;;
  (* Test 10 *)
  console_log (nl ++ "10. Testing wallet connection again (POPUP EXPECTED):") ;;
  try_catch
    (console_log "   Attempting to connect to wallet again..." ;;
     pubKey <- PhantomWallet.connectPhantomWallet again ;;
     console_log "   Connection successful! ✓" ;;
     console_log ("   Connected to: " ++ pubKey))
    report_connection_error ;;
  (* Clean up *)
  PhantomWallet.teardown removeListeners ;;
  console_log (nl ++ "=== TESTS COMPLETED ===").

End phantomWalletTest.

(** ** Events

    What happens when the provider emits an event, or the window fires
    [load]: the listeners registered for it run in registration order.  A
    caller's function is opaque: its invocation is recorded, and it is taken
    to return without calling back into the adapter synchronously (how
    [disconnect()] completes when its callback throws is followed by
    [disconnect_when]). *)
Definition invoke (cb : Callback) (arg : option PublicKey) : M unit :=
  match cb with
  | UserFn id => effect (Invoke (UserFn id) arg)
  | LoadHandler => PhantomWalletAdapter._checkConnection
  | AccountChangedHandler => PhantomWalletAdapter.accountChanged arg
  | DisconnectHandler => PhantomWalletAdapter._handleDisconnect
  end.

Fixpoint invoke_all (cbs : list Callback) (arg : option PublicKey) : M unit :=
  match cbs with
  | [] => ret tt
  | cb :: rest => invoke cb arg ;; invoke_all rest arg
  end.

Definition listeners_for (event : string) (l : list (string * Callback)) : list Callback :=
  List.map snd (List.filter (fun r => String.eqb event (fst r)) l).

Definition emit (a : nat) (event : string) (arg : option PublicKey) : M unit :=
  p <- read_provider a ;;
  match p with
  | Some p => invoke_all (listeners_for event (Provider.listeners p)) arg
  | None => ret tt
  end.

Definition fire_load : M unit :=
  win <- read_window ;;
  match win with
  | Some win => invoke_all (load_listeners win) None
  | None => ret tt
  end.

(** ** Vocabulary of the properties *)

(** The error taxonomy: the code throws plain [Error]s and passes provider
    rejections through, so a kind is read off the thrown value.  The
    "not installed" messages of both files share one prefix; 4001 is the
    provider's code for a request the user declined. *)
Inductive ErrorKind :=
| WalletUnavailable
| UserRejected
| NotConnected
| Passthrough.

Definition errorKind (e : Thrown) : ErrorKind :=
  match e with
  | Error message =>
      if String.prefix "Phantom wallet not installed" message then WalletUnavailable
      else if String.eqb message "Wallet not connected" then NotConnected
      else Passthrough
  | Rejection code _ => if Z.eqb code 4001 then UserRejected else Passthrough
  | ReferenceError _ => Passthrough
  end.

(** A browsing context exists and no wallet object has been injected into it. *)
Definition no_injected_provider (w : World) : bool :=
  match window w with
  | Some win => negb (truthy (phantom_solana win)) && negb (truthy (solana win))
  | None => false
  end.

(** Every reference held by [window] points at an object. *)
Definition bound (h : list Provider.t) (r : Ref) : bool :=
  match r with
  | Obj a => Nat.ltb a (length h)
  | _ => true
  end.

Definition well_formed (w : World) : bool :=
  match window w with
  | Some win => bound (heap w) (phantom_solana win) && bound (heap w) (solana win)
  | None => true
  end.

(** The provider keeps its side of [connect()]: once the promise resolves
    with a key, its [publicKey] property holds that key. *)
Definition honours (turn : Turn ConnectResponse) : Prop :=
  forall p response,
    settles turn = Resolves response ->
    snd (leaves turn p) = Some (response_publicKey response).

(** "The account identifier is non-null only when the state is connected." *)
Definition account_only_when_connected (a : Adapter) : bool :=
  match _publicKey a with
  | Some _ => _connected a
  | None => true
  end.

(** The operations of the adapter and the listeners it installs. *)
Inductive Operation :=
| New
| Connect (turn : Turn ConnectResponse)
| Disconnect (turn : Turn unit)
| OnDisconnect (callback : nat)
| SignTransaction (transaction : Transaction) (turn : Turn Transaction)
| SignAllTransactions (transactions : list Transaction) (turn : Turn (list Transaction))
| AddToken (tokenAddress : string) (turn : Turn unit)
| GetPublicKey
| GetConnected
| LoadEvent
| AccountChangedEvent (publicKey : option PublicKey)
| DisconnectEvent.

(** The world an operation leaves behind, whether it returned or threw. *)
Definition perform (op : Operation) (w : World) : World :=
  match op with
  | New => snd (PhantomWalletAdapter.constructor w)
  | Connect turn => snd (PhantomWalletAdapter.connect turn w)
  | Disconnect turn => snd (PhantomWalletAdapter.disconnect turn w)
  | OnDisconnect callback => snd (PhantomWalletAdapter.onDisconnect callback w)
  | SignTransaction transaction turn =>
      snd (PhantomWalletAdapter.signTransaction transaction turn w)
  | SignAllTransactions transactions turn =>
      snd (PhantomWalletAdapter.signAllTransactions transactions turn w)
  | AddToken tokenAddress turn => snd (PhantomWalletAdapter.addToken tokenAddress turn w)
  | GetPublicKey => snd (PhantomWalletAdapter.publicKey w)
  | GetConnected => snd (PhantomWalletAdapter.connected w)
  | LoadEvent => snd (invoke LoadHandler None w)
  | AccountChangedEvent publicKey => snd (invoke AccountChangedHandler publicKey w)
  | DisconnectEvent => snd (invoke DisconnectHandler None w)
  end.

Definition perform_all (ops : list Operation) (w : World) : World :=
  fold_left (fun w op => perform op w) ops w.

(** The only operation that can break the convention: the account-change
    listener receiving a key while the adapter is not connected. *)
Definition by_convention (op : Operation) (w : World) : bool :=
  match op with
  | AccountChangedEvent (Some _) => _connected (this w)
  | _ => true
  end.

(** The functions of a [callbacks] object. *)
Definition functions (c : PhantomWallet.Callbacks) : list Callback :=
  match PhantomWallet.onConnect c with Some f => [f] | None => [] end ++
  match PhantomWallet.onDisconnect c with Some f => [f] | None => [] end ++
  match PhantomWallet.onAccountChange c with Some f => [f] | None => [] end.

Definition mentions (fs : list Callback) (cb : Callback) : bool :=
  existsb (Callback_eqb cb) fs.

(** None of the functions [fs] is registered with the provider [p]. *)
Definition unknown_to (fs : list Callback) (p : Provider.t) : bool :=
  forallb (fun r => negb (mentions fs (snd r))) (Provider.listeners p).

(** None of them is the function handed to the adapter's [onDisconnect]. *)
Definition unknown_to_adapter (fs : list Callback) (a : Adapter) : bool :=
  match _onDisconnect a with
  | Some id => negb (mentions fs (UserFn id))
  | None => true
  end.

(** The provider at [a] emits a sequence of events; an exception escaping a
    listener ends that emission, not the sequence. *)
Definition fire (a : nat) (ev : string * option PublicKey) (w : World) : World :=
  snd (emit a (fst ev) (snd ev) w).

Definition fire_all (a : nat) (evs : list (string * option PublicKey)) (w : World) : World :=
  fold_left (fun w ev => fire a ev w) evs w.

(** The teardown function called [n] times in a row. *)
Fixpoint teardown_times (n : nat) (f : PhantomWallet.Teardown) (w : World) : World :=
  match n with
  | O => w
  | S n' => teardown_times n' f (snd (PhantomWallet.teardown f w))
  end.

Definition is_invocation_of (fs : list Callback) (e : Effect) : bool :=
  match e with
  | Invoke cb _ => mentions fs cb
  | _ => false
  end.

(** ** Concrete worlds and provider turns *)

Definition fresh_adapter : Adapter :=
  {| _publicKey := None; _connected := false; _onDisconnect := None |}.

Definition wallet (flag connected : bool) (key : option PublicKey) (policy : Removal)
  : Provider.t :=
  Provider.Build flag connected key [] policy.

(** A page with no wallet extension. *)
Definition browser_without_wallet : World :=
  {| window := Some {| phantom := NoProperty; solana := Undefined; load_listeners := [] |};
     heap := [];
     this := fresh_adapter;
     trace := [] |}.

(** A page into which Phantom has injected its provider, not yet connected. *)
Definition browser_with_wallet (policy : Removal) : World :=
  {| window := Some {| phantom := Namespace (Obj 0); solana := Obj 0; load_listeners := [] |};
     heap := [wallet true false None policy];
     this := fresh_adapter;
     trace := [] |}.

(** A page where [window.phantom.solana] holds an object without the
    [isPhantom] flag. *)
Definition browser_with_unflagged_object : World :=
  {| window := Some {| phantom := Namespace (Obj 0); solana := Undefined; load_listeners := [] |};
     heap := [wallet false false None RemoveAllMatching];
     this := fresh_adapter;
     trace := [] |}.

(** No [window] at all. *)
Definition server_side : World :=
  {| window := None; heap := []; this := fresh_adapter; trace := [] |}.

Definition Addr123 : PublicKey := {| base58 := "Addr123" |}.
Definition Addr456 : PublicKey := {| base58 := "Addr456" |}.

(** The user approves the connection with account [key]. *)
Definition approves (key : PublicKey) : Turn ConnectResponse :=
  {| settles := Resolves {| response_publicKey := key |};
     leaves := fun _ => (true, Some key) |}.

(** The user dismisses the approval window. *)
Definition declines {A} : Turn A :=
  {| settles := Rejects (Rejection 4001 "User rejected the request.");
     leaves := fun p => (Provider.isConnected p, Provider.publicKey p) |}.

(** The provider carries out [disconnect()] or a request. *)
Definition complies : Turn unit :=
  {| settles := Resolves tt;
     leaves := fun p => (Provider.isConnected p, Provider.publicKey p) |}.

(** The provider ends the session on [disconnect()]. *)
Definition ends_session : Turn unit :=
  {| settles := Resolves tt;
     leaves := fun _ => (false, None) |}.

(** The [isPhantom] flag of whatever a reference points at. *)
Definition has_flag (h : list Provider.t) (r : Ref) : bool :=
  match r with
  | Obj a => match h !! a with Some p => Provider.isPhantom p | None => false end
  | _ => false
  end.

(** The provider refuses a call made without an authorised session. *)
Definition refuses {A} : Turn A :=
  {| settles := Rejects (Rejection 4100
       "The requested method and/or account has not been authorized by the user.");
     leaves := fun p => (Provider.isConnected p, Provider.publicKey p) |}.

(** The adapter as [_handleDisconnect] leaves it. *)
Definition disconnected (a : Adapter) : Adapter :=
  {| _publicKey := None; _connected := false; _onDisconnect := _onDisconnect a |}.

(** What [setupPhantomEventListeners] and the function it returns do to the
    provider object, as functions of that object (see [setup_effect] and
    [teardown_effect] below). *)
Definition subscribed (c : PhantomWallet.Callbacks) (p : Provider.t) : Provider.t :=
  let p1 := match PhantomWallet.onConnect c with
            | Some f => on "connect" f p | None => p end in
  let p2 := match PhantomWallet.onDisconnect c with
            | Some f => on "disconnect" f p1 | None => p1 end in
  match PhantomWallet.onAccountChange c with
  | Some f => on "accountChanged" f p2 | None => p2 end.

Definition unsubscribed (c : PhantomWallet.Callbacks) (p : Provider.t) : Provider.t :=
  let p1 := match PhantomWallet.onConnect c with
            | Some f => removeListener "connect" f p | None => p end in
  let p2 := match PhantomWallet.onDisconnect c with
            | Some f => removeListener "disconnect" f p1 | None => p1 end in
  match PhantomWallet.onAccountChange c with
  | Some f => removeListener "accountChanged" f p2 | None => p2 end.

(** The same at the level of the listener list: the registrations a
    [callbacks] object stands for, and the removals its teardown performs. *)
Definition registrations (c : PhantomWallet.Callbacks) : list (string * Callback) :=
  match PhantomWallet.onConnect c with Some f => [("connect", f)] | None => [] end ++
  match PhantomWallet.onDisconnect c with Some f => [("disconnect", f)] | None => [] end ++
  match PhantomWallet.onAccountChange c with Some f => [("accountChanged", f)] | None => [] end.

Definition after_removals (policy : Removal) (c : PhantomWallet.Callbacks)
    (l : list (string * Callback)) : list (string * Callback) :=
  let l1 := match PhantomWallet.onConnect c with
            | Some f => remove policy "connect" f l | None => l end in
  let l2 := match PhantomWallet.onDisconnect c with
            | Some f => remove policy "disconnect" f l1 | None => l1 end in
  match PhantomWallet.onAccountChange c with
  | Some f => remove policy "accountChanged" f l2 | None => l2 end.

(** The effects emitted between two worlds contain no invocation of [fs]. *)
Definition silent (fs : list Callback) (new : list Effect) : bool :=
  forallb (fun e => negb (is_invocation_of fs e)) new.

(** The provider calls among a list of effects. *)
Definition is_call (e : Effect) : bool :=
  match e with
  | CallConnect _ | CallDisconnect _ | CallRequest _ _ _ _ | CallSign _ _ => true
  | _ => false
  end.

Definition calls (effects : list Effect) : list Effect := List.filter is_call effects.

(** [getPhantomWallet()] called [n] times in a row. *)
Fixpoint getPhantomWallet_times (n : nat) (s : Integration) : Integration :=
  match n with
  | O => s
  | S n' => getPhantomWallet_times n' (snd (getPhantomWallet s))
  end.

(** The user signs a transaction; the provider answers a send with a
    signature. *)
Definition signs (signed : Transaction) : Turn Transaction :=
  {| settles := Resolves signed;
     leaves := fun p => (Provider.isConnected p, Provider.publicKey p) |}.

Definition sends (sig : string) : Turn PhantomWallet.SendResponse :=
  {| settles := Resolves {| PhantomWallet.signature := sig |};
     leaves := fun p => (Provider.isConnected p, Provider.publicKey p) |}.

(** Listeners that are callers' functions, not the adapter's own. *)
Definition is_user_function (cb : Callback) : bool :=
  match cb with
  | UserFn _ => true
  | _ => false
  end.

Definition only_user_functions (cbs : list Callback) : bool := forallb is_user_function cbs.

(** Worlds whose [window.phantom.solana] is the provider object at address
    [a], in state [p]. *)
Definition provider_at (a : nat) (p : Provider.t) (w : World) : Prop :=
  phantom <$> window w = Some (Namespace (Obj a)) /\ heap w !! a = Some p.

(** The lines printed with [console.error]. *)
Definition is_error (e : Effect) : bool :=
  match e with
  | ConsoleError _ => true
  | _ => false
  end.

Definition errors (effects : list Effect) : list Effect := List.filter is_error effects.

(** Provider calls and error lines together, in the order they happen. *)
Definition observed (effects : list Effect) : list Effect :=
  List.filter (fun e => is_call e || is_error e) effects.

(** What the [catch] blocks of [runTests] print for a provider call: nothing
    when it resolves; when it rejects, the error's message, followed by the
    lines [unexpected] unless the code is 4001. *)
Definition reported {A} (turn : Turn A) (unexpected : list Effect) : list Effect :=
  match settles turn with
  | Resolves _ => []
  | Rejects e =>
      ConsoleError ("   ERROR: " ++ message_of e) ::
      (if code_is_4001 e then [] else unexpected)
  end.

(** In every such world the computation completes with [result], leaves the
    provider in state [p'] and everything else but the trace as it was, and
    the provider calls and error lines among the effects it adds are [cs]. *)
Definition run {A} (a : nat) (m : M A) (p : Provider.t)
    (result : Completion A) (p' : Provider.t) (cs : list Effect) : Prop :=
  forall w, provider_at a p w ->
    exists new,
      m w = (result,
             Build_World (window w) (<[a := p']> (heap w)) (this w) (trace w ++ new)%list) /\
      observed new = cs.

(** A page whose provider already has a listener: some other script has
    registered the function [UserFn 1] for ['connect']. *)
Definition browser_with_subscriber (policy : Removal) : World :=
  {| window := Some {| phantom := Namespace (Obj 0); solana := Obj 0; load_listeners := [] |};
     heap := [Provider.Build true false None [("connect", UserFn 1)] policy];
     this := fresh_adapter;
     trace := [] |}.

(** Callbacks objects with a single member. *)
Definition connect_only : PhantomWallet.Callbacks :=
  {| PhantomWallet.onConnect := Some (UserFn 1);
     PhantomWallet.onDisconnect := None;
     PhantomWallet.onAccountChange := None |}.

Definition disconnect_only : PhantomWallet.Callbacks :=
  {| PhantomWallet.onConnect := None;
     PhantomWallet.onDisconnect := Some (UserFn 2);
     PhantomWallet.onAccountChange := None |}.

(** A [World] carries the fields of one adapter object, [this].  At most one
    adapter listens to the provider when each of the two listeners that an
    adapter's constructor registers occurs at most once; they are then the
    listeners of [this]. *)
Definition is_handler (h : Callback) (r : string * Callback) : bool :=
  Callback_eqb h (snd r).

Definition at_most_one_adapter (p : Provider.t) : bool :=
  Nat.leb (length (List.filter (is_handler DisconnectHandler) (Provider.listeners p))) 1 &&
  Nat.leb (length (List.filter (is_handler AccountChangedHandler) (Provider.listeners p))) 1.

(** A page with an older Phantom: no [window.phantom], the provider is the
    flagged [window.solana]. *)
Definition browser_with_older_wallet : World :=
  {| window := Some {| phantom := NoProperty; solana := Obj 0; load_listeners := [] |};
     heap := [wallet true true (Some Addr123) RemoveAllMatching];
     this := {| _publicKey := Some Addr123; _connected := true; _onDisconnect := None |};
     trace := [] |}.

(** * Properties *)

Create HintDb js.
#[local] Hint Unfold
  bind ret throw try_catch effect read_window read_provider update_provider
  read_this write_this update_window await window_open
  read_isConnected read_isPhantom read_publicKey
  PhantomWallet.debugLog PhantomWallet.DEBUG
  PhantomWalletAdapter.console_log PhantomWalletAdapter.console_error
  PhantomWalletAdapter.assign : js.

Ltac js_step := autounfold with js in *; cbn [fst snd] in *.

(** ** The provider locators *)

Lemma getPhantomProvider_eq (w : World) :
  PhantomWallet.getPhantomProvider w =
  match window w with
  | Some win =>
      if truthy (phantom_solana win)
      then (Normal (phantom_solana win),
            Build_World (window w) (heap w) (this w)
              (trace w ++ [ConsoleLog "[PHANTOM] Phantom provider retrieved"]))
      else (Normal Null,
            Build_World (window w) (heap w) (this w)
              (trace w ++ [ConsoleLog "[PHANTOM] Phantom provider not found"]))
  | None => (Normal Null,
             Build_World (window w) (heap w) (this w)
               (trace w ++ [ConsoleLog "[PHANTOM] Phantom provider not found"]))
  end.
Proof.
  destruct w as [[win|] h ad tr]; unfold PhantomWallet.getPhantomProvider;
    js_step; cbn; [|reflexivity].
  destruct (truthy (phantom_solana win)); reflexivity.
Qed.

Lemma truthy_Obj (r : Ref) : truthy r = true -> exists a, r = Obj a.
Proof. destruct r; simpl; intros H; try discriminate. eauto. Qed.

Lemma _getProvider_eq (w : World) (win : Window) :
  window w = Some win ->
  PhantomWalletAdapter._getProvider w =
  (Normal match phantom win with
          | NoProperty =>
              match solana win with
              | Obj a =>
                  match heap w !! a with
                  | Some p => if Provider.isPhantom p then solana win else Null
                  | None => Null
                  end
              | _ => Null
              end
          | _ => phantom_solana win
          end, w).
Proof.
  destruct w as [win0 h ad tr]; cbn. intros ->.
  unfold PhantomWalletAdapter._getProvider. js_step. cbn.
  destruct (phantom win); try reflexivity.
  destruct (solana win) as [| |a]; try reflexivity.
  js_step. cbn. destruct (h !! a) as [p|]; [|reflexivity].
  destruct (Provider.isPhantom p); reflexivity.
Qed.

Lemma _getProvider_absent (w : World) :
  no_injected_provider w = true ->
  exists r, PhantomWalletAdapter._getProvider w = (Normal r, w) /\ truthy r = false.
Proof.
  unfold no_injected_provider. destruct (window w) as [win|] eqn:Hwin; [|discriminate].
  intros H. apply andb_prop in H as [H1 H2].
  apply negb_true_iff in H1, H2.
  rewrite (_getProvider_eq w win Hwin).
  eexists; split; [reflexivity|].
  destruct (phantom win) eqn:Hp; try assumption.
  destruct (solana win); try reflexivity. discriminate.
Qed.

(** C5 (amended).  [getPhantomProvider] never throws, with or without a
    [window]; it returns the object held by [window.phantom.solana] exactly
    when there is one, whatever its [isPhantom] flag, and [null] otherwise;
    it changes nothing and its only effect is one debug line on the console.
    Where [window] exists, [_getProvider] returns without effect: the value
    of [window.phantom?.solana] when [window] has a [phantom] property, and
    otherwise [window.solana] when that object carries the flag, else
    [null]. *)
Theorem locator_follows_the_slot (w : World) :
  (exists r w',
     PhantomWallet.getPhantomProvider w = (Normal r, w') /\
     (forall a, r = Obj a <->
                exists win, window w = Some win /\ phantom win = Namespace (Obj a)) /\
     ((forall a, r <> Obj a) -> r = Null) /\
     window w' = window w /\ heap w' = heap w /\ this w' = this w /\
     exists line, trace w' = (trace w ++ [ConsoleLog line])%list) /\
  (forall win, window w = Some win ->
     exists r,
       PhantomWalletAdapter._getProvider w = (Normal r, w) /\
       (phantom win <> NoProperty -> r = phantom_solana win) /\
       (phantom win = NoProperty ->
        r = if has_flag (heap w) (solana win) then solana win else Null)).
Proof.
  split.
  - rewrite getPhantomProvider_eq.
    destruct (window w) as [win|] eqn:Hwin.
    + destruct (truthy (phantom_solana win)) eqn:Ht.
      * apply truthy_Obj in Ht as [a Ha].
        eexists _, _; split; [reflexivity|]. cbn.
        assert (Hslot : phantom win = Namespace (Obj a)).
        { unfold phantom_solana in Ha. destruct (phantom win); congruence. }
        repeat split; eauto.
        -- intros Hr. exists win. split; [reflexivity|]. congruence.
        -- intros (win' & Hw & Hp). congruence.
        -- intros Hno. exfalso. apply (Hno a). assumption.
      * eexists _, _; split; [reflexivity|]. cbn.
        repeat split; eauto; try discriminate.
        intros (win' & Hw & Hp). injection Hw as <-.
        unfold phantom_solana in Ht. rewrite Hp in Ht. discriminate.
    + eexists _, _; split; [reflexivity|]. cbn.
      repeat split; eauto; try discriminate.
      intros (win' & Hw & _). discriminate.
  - intros win Hwin. rewrite (_getProvider_eq w win Hwin).
    eexists; split; [reflexivity|]. split.
    + destruct (phantom win); congruence.
    + intros ->. unfold has_flag. destruct (solana win) as [| |a]; try reflexivity.
      destruct (heap w !! a); reflexivity.
Qed.

(** C5, the claim as stated, fails: an object at [window.phantom.solana]
    whose [isPhantom] flag is not set is returned by both locators, and
    [_getProvider] throws where [window] is not declared. *)
Lemma locator_ignores_the_flag :
  has_flag (heap browser_with_unflagged_object) (Obj 0) = false /\
  fst (PhantomWallet.getPhantomProvider browser_with_unflagged_object) = Normal (Obj 0) /\
  fst (PhantomWalletAdapter._getProvider browser_with_unflagged_object) = Normal (Obj 0) /\
  fst (PhantomWalletAdapter._getProvider server_side) =
    Throw (ReferenceError "window is not defined").
Proof. repeat split. Qed.

Lemma locator_follows_the_slot_witness :
  exists r,
    PhantomWalletAdapter._getProvider (browser_with_wallet RemoveAllMatching) =
      (Normal r, browser_with_wallet RemoveAllMatching) /\
    r = Obj 0.
Proof.
  destruct (locator_follows_the_slot (browser_with_wallet RemoveAllMatching)) as [_ H].
  destruct (H _ eq_refl) as (r & Hr & Hp & _).
  exists r. split; [exact Hr|]. apply Hp. discriminate.
Defined.

Lemma _getProvider_pure (w : World) : snd (PhantomWalletAdapter._getProvider w) = w.
Proof.
  destruct (window w) as [win|] eqn:Hwin.
  - rewrite (_getProvider_eq w win Hwin). reflexivity.
  - destruct w as [win h ad tr]; cbn in Hwin; subst win. reflexivity.
Qed.

Lemma _getProvider_cases (w : World) :
  (exists a, PhantomWalletAdapter._getProvider w = (Normal (Obj a), w)) \/
  (exists r, PhantomWalletAdapter._getProvider w = (Normal r, w) /\ truthy r = false) \/
  (window w = None /\
   PhantomWalletAdapter._getProvider w = (Throw (ReferenceError "window is not defined"), w)).
Proof.
  pose proof (_getProvider_pure w) as Hpure.
  destruct (PhantomWalletAdapter._getProvider w) as [[r|e] w0] eqn:Hg; cbn in Hpure; subst w0.
  - destruct r as [| |a]; [right; left | right; left | left]; eauto.
  - right; right. destruct (window w) as [win|] eqn:Hwin.
    + rewrite (_getProvider_eq w win Hwin) in Hg. discriminate.
    + split; [reflexivity|]. destruct w as [win h ad tr]; cbn in Hwin; subst win.
      cbv in Hg. inversion Hg. reflexivity.
Qed.

(** ** Connecting *)

(** C4.  When the adapter's [connect()] fails, for whatever reason (no
    provider, the user's rejection, any other rejection), the adapter's
    fields are what they were before the call. *)
Theorem failed_connect_leaves_adapter_untouched
    (w w' : World) (turn : Turn ConnectResponse) (e : Thrown) :
  PhantomWalletAdapter.connect turn w = (Throw e, w') ->
  this w' = this w.
Proof.
  unfold PhantomWalletAdapter.connect, try_catch, bind at 1.
  destruct (_getProvider_cases w) as [[a Hg] | [(r & Hg & Hr) | [_ Hg]]]; rewrite Hg.
  - js_step. destruct (settles turn); cbn; intros H; inversion H. reflexivity.
  - destruct r; try discriminate; js_step; intros H; inversion H; reflexivity.
  - js_step. intros H; inversion H; reflexivity.
Qed.

Lemma failed_connect_leaves_adapter_untouched_witness :
  fst (PhantomWalletAdapter.connect declines (browser_with_wallet RemoveAllMatching)) =
    Throw (Rejection 4001 "User rejected the request.") /\
  this (snd (PhantomWalletAdapter.connect declines (browser_with_wallet RemoveAllMatching))) =
    this (browser_with_wallet RemoveAllMatching).
Proof.
  split; [reflexivity|].
  apply (failed_connect_leaves_adapter_untouched
           (browser_with_wallet RemoveAllMatching) _ declines
           (Rejection 4001 "User rejected the request.")).
  vm_compute. reflexivity.
Defined.

(** C10 (amended).  In a browsing context where the locator finds no provider,
    [connectPhantomWallet] opens [https://phantom.app/] in a new tab and then
    throws its not-installed error; no provider call is made. *)
Theorem connect_opens_the_installation_page
    (w : World) (win : Window) (turn : Turn ConnectResponse) :
  window w = Some win ->
  fst (PhantomWallet.getPhantomProvider w) = Normal Null ->
  PhantomWallet.connectPhantomWallet turn w =
  (Throw (Error "Phantom wallet not installed. Please install it from phantom.app"),
   Build_World (window w) (heap w) (this w)
     (trace w ++
      [ConsoleLog "[PHANTOM] Phantom provider not found";
       ConsoleLog "[PHANTOM] Phantom wallet not installed, opening installation page";
       WindowOpen "https://phantom.app/" "_blank";
       ConsoleLog "[PHANTOM] Error connecting to Phantom wallet:"])%list).
Proof.
  intros Hwin Hnull.
  unfold PhantomWallet.connectPhantomWallet, try_catch, bind at 1.
  rewrite getPhantomProvider_eq in Hnull |- *. rewrite Hwin in Hnull |- *.
  destruct (truthy (phantom_solana win)) eqn:Ht.
  - apply truthy_Obj in Ht as [a Ha]. cbn in Hnull. congruence.
  - js_step. cbn. rewrite <- !app_assoc. reflexivity.
Qed.

Lemma connect_opens_the_installation_page_witness :
  In (WindowOpen "https://phantom.app/" "_blank")
     (trace (snd (PhantomWallet.connectPhantomWallet (approves Addr123)
                    browser_without_wallet))).
Proof.
  rewrite (connect_opens_the_installation_page browser_without_wallet _ _ eq_refl eq_refl).
  cbn. auto.
Defined.

(** C10, the claim as stated, fails: where [window] is not declared the
    locator returns null as well, but no page is opened and the call throws
    a [ReferenceError] in place of the not-installed error. *)
Lemma connect_without_window_opens_nothing :
  fst (PhantomWallet.getPhantomProvider server_side) = Normal Null /\
  PhantomWallet.connectPhantomWallet (approves Addr123) server_side =
  (Throw (ReferenceError "window is not defined"),
   Build_World None [] fresh_adapter
     [ConsoleLog "[PHANTOM] Phantom provider not found";
      ConsoleLog "[PHANTOM] Phantom wallet not installed, opening installation page";
      ConsoleLog "[PHANTOM] Error connecting to Phantom wallet:"]).
Proof. split; reflexivity. Qed.

(** ** A context without a provider *)

Lemma perform_without_provider (op : Operation) (w : World) :
  no_injected_provider w = true ->
  _connected (this w) = false ->
  no_injected_provider (perform op w) = true /\ _connected (this (perform op w)) = false.
Proof.
  unfold no_injected_provider at 1.
  destruct w as [[[ph so ll]|] h [key c [f|]] tr]; try discriminate; cbn;
    intros Hno Hc;
    (destruct ph as [| |[| |a]]; destruct so as [| |b]; try discriminate;
     destruct op; try destruct publicKey; split; cbn; auto).
Qed.

Lemma perform_all_without_provider (ops : list Operation) (w : World) :
  no_injected_provider w = true ->
  _connected (this w) = false ->
  _connected (this (perform_all ops w)) = false.
Proof.
  revert w. induction ops as [|op ops IH]; intros w Hno Hc; [exact Hc|].
  cbn. destruct (perform_without_provider op w Hno Hc) as [Hno' Hc'].
  apply IH; assumption.
Qed.

(** C3.  In a browsing context with no injected provider,
    [isPhantomConnected()] returns [false]; [connectPhantomWallet()] and the
    adapter's [connect()] throw an error of kind [WalletUnavailable] instead
    of returning an account; and an adapter created there reports
    [connected = false] after any sequence of its operations. *)
Theorem absent_provider_is_unavailable (w : World) (turn : Turn ConnectResponse) :
  no_injected_provider w = true ->
  fst (PhantomWallet.isPhantomConnected w) = Normal false /\
  (exists e, fst (PhantomWallet.connectPhantomWallet turn w) = Throw e /\
             errorKind e = WalletUnavailable) /\
  (exists e, fst (PhantomWalletAdapter.connect turn w) = Throw e /\
             errorKind e = WalletUnavailable) /\
  (forall ops,
     fst (PhantomWalletAdapter.connected (perform_all ops (perform New w))) = Normal false).
Proof.
  intros Hno. repeat split.
  - unfold no_injected_provider in Hno.
    destruct w as [[[ph so ll]|] h ad tr]; [|discriminate]. cbn in Hno.
    destruct ph as [| |[| |a]]; try discriminate; reflexivity.
  - unfold no_injected_provider in Hno.
    destruct w as [[[ph so ll]|] h ad tr]; [|discriminate]. cbn in Hno.
    destruct ph as [| |[| |a]]; try discriminate;
      (eexists; split; [reflexivity|reflexivity]).
  - unfold no_injected_provider in Hno.
    destruct w as [[[ph so ll]|] h ad tr]; [|discriminate]. cbn in Hno.
    destruct ph as [| |[| |a]]; destruct so as [| |b]; try discriminate;
      (eexists; split; [reflexivity|reflexivity]).
  - intros ops.
    assert (Hnew : no_injected_provider (perform New w) = true /\
                   _connected (this (perform New w)) = false).
    { unfold no_injected_provider in Hno.
      destruct w as [[[ph so ll]|] h ad tr]; [|discriminate]. cbn in Hno.
      destruct ph as [| |[| |a]]; destruct so as [| |b]; try discriminate;
        split; reflexivity. }
    destruct Hnew as [Hno' Hc'].
    unfold PhantomWalletAdapter.connected. js_step.
    f_equal. apply perform_all_without_provider; assumption.
Qed.

Lemma absent_provider_is_unavailable_witness :
  fst (PhantomWallet.isPhantomConnected browser_without_wallet) = Normal false /\
  fst (PhantomWalletAdapter.connected
         (perform_all [Connect (approves Addr123); LoadEvent]
            (perform New browser_without_wallet))) = Normal false.
Proof.
  destruct (absent_provider_is_unavailable browser_without_wallet (approves Addr123) eq_refl)
    as (H1 & _ & _ & H4).
  split; [exact H1 | apply H4].
Defined.

(** ** The asset-watch helper *)

(** C1 (amended).  In a browsing context, the adapter's [addToken] called
    while the adapter is not connected throws [Error("Wallet not connected")]
    (kind [NotConnected]) whether or not a provider is present, and issues no
    provider request: the console error line is its only effect.
    [addTokenToPhantomWallet] called while the locator finds no provider
    throws [Error("Phantom wallet not installed")] (kind [WalletUnavailable])
    and issues no provider request either. *)
Theorem asset_watch_without_session
    (w : World) (tokenAddress : string) (turn : Turn unit) :
  (forall win,
     window w = Some win ->
     _connected (this w) = false ->
     PhantomWalletAdapter.addToken tokenAddress turn w =
     (Throw (Error "Wallet not connected"),
      Build_World (window w) (heap w) (this w)
        (trace w ++ [ConsoleError "Error adding token to wallet:"])%list)) /\
  (fst (PhantomWallet.getPhantomProvider w) = Normal Null ->
   PhantomWallet.addTokenToPhantomWallet tokenAddress turn w =
   (Throw (Error "Phantom wallet not installed"),
    Build_World (window w) (heap w) (this w)
      (trace w ++ [ConsoleLog "[PHANTOM] Phantom provider not found";
                   ConsoleLog "[PHANTOM] Error adding token to wallet:"])%list)) /\
  errorKind (Error "Wallet not connected") = NotConnected /\
  errorKind (Error "Phantom wallet not installed") = WalletUnavailable.
Proof.
  repeat split.
  - intros win Hwin Hc.
    unfold PhantomWalletAdapter.addToken, try_catch, bind at 1.
    rewrite (_getProvider_eq w win Hwin).
    unfold PhantomWalletAdapter.connected. js_step. rewrite Hc.
    match goal with
    | |- (let (_, _) := match ?r with Null => _ | Undefined => _ | Obj _ => _ end w in _) = _ =>
        destruct r
    end; reflexivity.
  - intros Hnull.
    unfold PhantomWallet.addTokenToPhantomWallet, try_catch, bind at 1.
    rewrite getPhantomProvider_eq in Hnull |- *.
    destruct w as [[win|] h ad tr]; cbn in *.
    + destruct (truthy (phantom_solana win)) eqn:Ht.
      * apply truthy_Obj in Ht as [a Ha]. cbn in Hnull. congruence.
      * js_step. cbn. rewrite <- !app_assoc. reflexivity.
    + js_step. cbn. rewrite <- !app_assoc. reflexivity.
Qed.

(** C1, the claim as stated, fails twice.  With no provider the adapter's
    [addToken] reports "Wallet not connected", not an unavailable wallet;
    and with a provider that has never been connected
    [addTokenToPhantomWallet] issues the [wallet_watchAsset] request and
    returns normally. *)
Lemma asset_watch_gaps :
  no_injected_provider browser_without_wallet = true /\
  fst (PhantomWalletAdapter.addToken "Mint111" complies browser_without_wallet) =
    Throw (Error "Wallet not connected") /\
  errorKind (Error "Wallet not connected") <> WalletUnavailable /\
  Provider.isConnected <$> heap (browser_with_wallet RemoveAllMatching) !! 0 = Some false /\
  PhantomWallet.addTokenToPhantomWallet "Mint111" complies
      (browser_with_wallet RemoveAllMatching) =
    (Normal tt,
     Build_World (window (browser_with_wallet RemoveAllMatching))
       (heap (browser_with_wallet RemoveAllMatching))
       (this (browser_with_wallet RemoveAllMatching))
       [ConsoleLog "[PHANTOM] Phantom provider retrieved";
        ConsoleLog "[PHANTOM] Adding token to wallet: Mint111";
        CallRequest 0 "wallet_watchAsset" "SPL" "Mint111";
        ConsoleLog "[PHANTOM] Token added to wallet:"]).
Proof. repeat split; discriminate. Qed.

Lemma asset_watch_without_session_witness :
  fst (PhantomWalletAdapter.addToken "Mint111" complies
         (browser_with_wallet RemoveAllMatching)) =
    Throw (Error "Wallet not connected") /\
  fst (PhantomWallet.addTokenToPhantomWallet "Mint111" complies browser_without_wallet) =
    Throw (Error "Phantom wallet not installed").
Proof.
  destruct (asset_watch_without_session (browser_with_wallet RemoveAllMatching)
              "Mint111" complies) as (H1 & _).
  destruct (asset_watch_without_session browser_without_wallet "Mint111" complies)
    as (_ & H2 & _).
  rewrite (H1 _ eq_refl eq_refl), (H2 eq_refl). split; reflexivity.
Defined.

(** ** Disconnecting *)

(** C9 (amended).  With no provider present, [disconnect()] and
    [disconnectPhantomWallet()] return without throwing, call nothing and
    leave the adapter as it was.  With a provider present (whichever object
    the function's own locator returns: [window.phantom.solana], or for the
    adapter the flagged [window.solana] of older versions) the call is
    always forwarded to [provider.disconnect()], whatever the connection
    state.  If the provider rejects, the rejection is thrown, the adapter is
    unchanged and the [onDisconnect] callback is not called.  If it
    resolves, [disconnectPhantomWallet()] returns; the adapter is left
    disconnected with a null account (no change when it was so before) and
    then calls the [onDisconnect] callback if one is set: [disconnect()]
    returns when the callback returns (or none is set) and throws what the
    callback throws.  Nothing else happens but the console lines shown. *)
Theorem disconnect_is_forwarded (w : World) (turn : Turn unit) :
  (no_injected_provider w = true ->
   PhantomWalletAdapter.disconnect turn w = (Normal tt, w) /\
   PhantomWallet.disconnectPhantomWallet turn w =
   (Normal tt,
    Build_World (window w) (heap w) (this w)
      (trace w ++ [ConsoleLog "[PHANTOM] Phantom provider not found"])%list)) /\
  (forall a completion,
     fst (PhantomWalletAdapter._getProvider w) = Normal (Obj a) ->
     PhantomWalletAdapter.disconnect_when completion turn w =
     match settles turn with
     | Rejects e =>
         (Throw e,
          Build_World (window w) (alter (after turn) a (heap w)) (this w)
            (trace w ++
             [CallDisconnect a;
              ConsoleError "Error disconnecting from Phantom wallet:"])%list)
     | Resolves _ =>
         match _onDisconnect (this w), completion with
         | Some id, Some thrown =>
             (Throw thrown,
              Build_World (window w) (alter (after turn) a (heap w))
                (disconnected (this w))
                (trace w ++
                 [CallDisconnect a;
                  Invoke (UserFn id) None;
                  ConsoleError "Error disconnecting from Phantom wallet:"])%list)
         | Some id, None =>
             (Normal tt,
              Build_World (window w) (alter (after turn) a (heap w))
                (disconnected (this w))
                (trace w ++
                 [CallDisconnect a;
                  Invoke (UserFn id) None;
                  ConsoleLog "Disconnected from Phantom wallet"])%list)
         | None, _ =>
             (Normal tt,
              Build_World (window w) (alter (after turn) a (heap w))
                (disconnected (this w))
                (trace w ++
                 [CallDisconnect a;
                  ConsoleLog "Disconnected from Phantom wallet"])%list)
         end
     end) /\
  (forall a,
     fst (PhantomWallet.getPhantomProvider w) = Normal (Obj a) ->
     PhantomWallet.disconnectPhantomWallet turn w =
     match settles turn with
     | Rejects e =>
         (Throw e,
          Build_World (window w) (alter (after turn) a (heap w)) (this w)
            (trace w ++
             [ConsoleLog "[PHANTOM] Phantom provider retrieved";
              ConsoleLog "[PHANTOM] Disconnecting from Phantom wallet...";
              CallDisconnect a;
              ConsoleLog "[PHANTOM] Error disconnecting from Phantom wallet:"])%list)
     | Resolves _ =>
         (Normal tt,
          Build_World (window w) (alter (after turn) a (heap w)) (this w)
            (trace w ++
             [ConsoleLog "[PHANTOM] Phantom provider retrieved";
              ConsoleLog "[PHANTOM] Disconnecting from Phantom wallet...";
              CallDisconnect a;
              ConsoleLog "[PHANTOM] Disconnected from Phantom wallet"])%list)
     end) /\
  (_publicKey (this w) = None -> _connected (this w) = false ->
   disconnected (this w) = this w).
Proof.
  repeat apply conj.
  - unfold no_injected_provider.
    destruct w as [[[ph so ll]|] h ad tr]; [|discriminate]. cbn.
    intros Hno.
    destruct ph as [| |[| |a]]; destruct so as [| |b]; try discriminate; split; reflexivity.
  - intros a completion Hg.
    assert (Hrun : PhantomWalletAdapter._getProvider w = (Normal (Obj a), w)).
    { pose proof (_getProvider_pure w) as Hpure.
      destruct (PhantomWalletAdapter._getProvider w) as [r w0]. cbn in Hg, Hpure.
      congruence. }
    unfold PhantomWalletAdapter.disconnect_when, try_catch, bind at 1. rewrite Hrun.
    destruct w as [win h [key c f] tr].
    js_step. cbn.
    destruct (settles turn) as [[]|e]; destruct f as [id|]; destruct completion; cbn;
      rewrite <- ?app_assoc; reflexivity.
  - intros a Hg.
    unfold PhantomWallet.disconnectPhantomWallet, try_catch, bind at 1.
    rewrite getPhantomProvider_eq in Hg |- *.
    destruct w as [[win|] h ad tr]; cbn in Hg |- *; [|discriminate].
    destruct (truthy (phantom_solana win)); cbn in Hg; [|discriminate].
    injection Hg as Hg. rewrite Hg.
    js_step. cbn.
    destruct (settles turn) as [[]|e]; cbn; rewrite <- ?app_assoc; reflexivity.
  - destruct (this w) as [key c f]; cbn. intros -> ->. reflexivity.
Qed.

(** C9, the claim as stated, fails: with a provider present and no session,
    the call still reaches the provider, so it throws when the provider
    rejects; and when the provider resolves, the adapter runs the
    [onDisconnect] callback although nothing was connected. *)
Lemma disconnect_without_session_is_no_noop :
  Provider.isConnected <$> heap (browser_with_wallet RemoveAllMatching) !! 0 = Some false /\
  _connected (this (browser_with_wallet RemoveAllMatching)) = false /\
  fst (PhantomWalletAdapter.disconnect refuses (browser_with_wallet RemoveAllMatching)) =
    Throw (Rejection 4100
      "The requested method and/or account has not been authorized by the user.") /\
  fst (PhantomWallet.disconnectPhantomWallet refuses (browser_with_wallet RemoveAllMatching)) =
    Throw (Rejection 4100
      "The requested method and/or account has not been authorized by the user.") /\
  trace (snd (PhantomWalletAdapter.disconnect complies
                (perform (OnDisconnect 7) (browser_with_wallet RemoveAllMatching)))) =
    [CallDisconnect 0; Invoke (UserFn 7) None; ConsoleLog "Disconnected from Phantom wallet"].
Proof. repeat split. Qed.

Lemma disconnect_is_forwarded_witness :
  PhantomWalletAdapter.disconnect complies browser_without_wallet =
    (Normal tt, browser_without_wallet) /\
  trace (snd (PhantomWalletAdapter.disconnect ends_session
                (perform (OnDisconnect 7) (browser_with_wallet RemoveAllMatching)))) =
    [CallDisconnect 0; Invoke (UserFn 7) None;
     ConsoleLog "Disconnected from Phantom wallet"] /\
  fst (PhantomWallet.disconnectPhantomWallet declines
         (browser_with_wallet RemoveAllMatching)) =
    Throw (Rejection 4001 "User rejected the request.") /\
  this (snd (PhantomWalletAdapter.disconnect ends_session browser_with_older_wallet)) =
    fresh_adapter /\
  fst (PhantomWalletAdapter.disconnect_when (Some (Error "callback failed")) complies
         (perform (OnDisconnect 7) (browser_with_wallet RemoveAllMatching))) =
    Throw (Error "callback failed").
Proof.
  destruct (disconnect_is_forwarded
              (perform (OnDisconnect 7) (browser_with_wallet RemoveAllMatching))
              complies) as (_ & H5 & _).
  destruct (disconnect_is_forwarded browser_with_older_wallet ends_session)
    as (_ & H4 & _).
  destruct (disconnect_is_forwarded browser_without_wallet complies) as (H1 & _).
  destruct (disconnect_is_forwarded
              (perform (OnDisconnect 7) (browser_with_wallet RemoveAllMatching))
              ends_session) as (_ & H2 & _).
  destruct (disconnect_is_forwarded (browser_with_wallet RemoveAllMatching) declines)
    as (_ & _ & H3 & _).
  split; [|split; [|split; [|split]]].
  - apply (H1 eq_refl).
  - unfold PhantomWalletAdapter.disconnect. rewrite (H2 0 None eq_refl). reflexivity.
  - rewrite (H3 0 eq_refl). reflexivity.
  - unfold PhantomWalletAdapter.disconnect. rewrite (H4 0 None eq_refl). reflexivity.
  - rewrite (H5 0 (Some (Error "callback failed")) eq_refl). reflexivity.
Defined.

(** ** Reading the account after connecting *)

Lemma bound_lookup (h : list Provider.t) (a : nat) :
  bound h (Obj a) = true -> exists p, h !! a = Some p.
Proof.
  cbn. intros H. apply Nat.ltb_lt in H.
  apply lookup_lt_is_Some_2 in H. destruct H as [p Hp]. eauto.
Qed.

(** C8.  After the adapter's [connect()] has returned a key, its
    [publicKey] getter returns that key.  After [connectPhantomWallet()]
    has returned an identifier, [getConnectedPublicKey()] returns the same
    string, provided the provider object exposes the key it resolved with
    in its [publicKey] property (the identifier, a base58 rendering, is
    not the empty string). *)
Theorem account_after_connect :
  (forall w w1 turn key,
     PhantomWalletAdapter.connect turn w = (Normal key, w1) ->
     fst (PhantomWalletAdapter.publicKey w1) = Normal (Some key)) /\
  (forall w w1 turn identifier,
     PhantomWallet.connectPhantomWallet turn w = (Normal identifier, w1) ->
     well_formed w = true ->
     honours turn ->
     identifier <> "" ->
     fst (PhantomWallet.getConnectedPublicKey w1) = Normal (Some identifier)).
Proof.
  split.
  - intros w w1 turn key.
    unfold PhantomWalletAdapter.connect, try_catch, bind at 1.
    destruct (_getProvider_cases w) as [[a Hg] | [(r & Hg & Hr) | [_ Hg]]]; rewrite Hg.
    + js_step. destruct (settles turn) as [response|e]; cbn; intros H; inversion H.
      reflexivity.
    + destruct r; try discriminate; js_step; intros H; inversion H.
    + js_step. intros H; inversion H.
  - intros w w1 turn identifier Hconnect Hwf Hturn Hne.
    unfold PhantomWallet.connectPhantomWallet, try_catch, bind at 1 in Hconnect.
    rewrite getPhantomProvider_eq in Hconnect.
    unfold well_formed in Hwf.
    destruct w as [[win|] h ad tr]; cbn in Hconnect, Hwf.
    + destruct (phantom_solana win) as [| |a] eqn:Hslot; cbn in Hconnect;
        try (js_step; cbn in Hconnect; discriminate).
      apply andb_prop in Hwf as [Hb _]. apply bound_lookup in Hb as [p Hp].
      js_step. cbn in Hconnect.
      destruct (settles turn) as [response|e] eqn:Hs; cbn in Hconnect;
        inversion Hconnect; subst; clear Hconnect.
      unfold PhantomWallet.getConnectedPublicKey, PhantomWallet.getPhantomProvider.
      js_step. cbn. rewrite Hslot. cbn.
      rewrite list_lookup_alter_eq, Hp. cbn.
      rewrite (Hturn p response Hs).
      destruct (String.eqb_spec (toString (response_publicKey response)) "") as [He|He];
        [contradiction|reflexivity].
    + js_step. cbn in Hconnect. discriminate.
Qed.

Lemma account_after_connect_witness :
  fst (PhantomWalletAdapter.publicKey
         (snd (PhantomWalletAdapter.connect (approves Addr123)
                 (browser_with_wallet RemoveAllMatching)))) = Normal (Some Addr123) /\
  fst (PhantomWallet.getConnectedPublicKey
         (snd (PhantomWallet.connectPhantomWallet (approves Addr123)
                 (browser_with_wallet RemoveAllMatching)))) = Normal (Some "Addr123").
Proof.
  destruct account_after_connect as [H1 H2]. split.
  - apply (H1 (browser_with_wallet RemoveAllMatching) _ (approves Addr123)).
    vm_compute. reflexivity.
  - apply (H2 (browser_with_wallet RemoveAllMatching) _ (approves Addr123)).
    + vm_compute. reflexivity.
    + reflexivity.
    + intros p response H. inversion H. reflexivity.
    + discriminate.
Defined.

(** ** The adapter's convention *)

Arguments PhantomWalletAdapter._getProvider : simpl never.

Ltac provider_case :=
  match goal with
  | |- context [PhantomWalletAdapter._getProvider ?x] =>
      let Hg := fresh "Hg" in
      let Hr := fresh "Hr" in
      let r := fresh "r" in
      destruct (_getProvider_cases x) as [[? Hg] | [(r & Hg & Hr) | [_ Hg]]];
      rewrite Hg; clear Hg;
      [ | destruct r; try discriminate Hr | ]
  end.

Ltac run_js :=
  repeat (cbn in *;
          first [ provider_case
                | match goal with
                  | |- context [match ?x with _ => _ end] => is_var x; destruct x
                  | |- context [settles ?t] => destruct (settles t)
                  | |- context [?h !! ?a] => destruct (h !! a)
                  end
                | match goal with
                  | |- context [match ?x with _ => _ end] => destruct x eqn:?
                  end ]);
  cbn in *.

Lemma perform_keeps_convention (op : Operation) (w : World) :
  account_only_when_connected (this w) = true ->
  by_convention op w = true ->
  account_only_when_connected (this (perform op w)) = true.
Proof.
  unfold account_only_when_connected, by_convention.
  destruct w as [win h [key c f] tr]. cbn.
  intros Hinv Hop.
  destruct op; unfold perform;
    unfold PhantomWalletAdapter.constructor, PhantomWalletAdapter._checkForPhantom,
      PhantomWalletAdapter._registerEvents, PhantomWalletAdapter.connect,
      PhantomWalletAdapter.disconnect, PhantomWalletAdapter.disconnect_when, PhantomWalletAdapter.onDisconnect,
      PhantomWalletAdapter.signTransaction, PhantomWalletAdapter.signAllTransactions,
      PhantomWalletAdapter.addToken, PhantomWalletAdapter.publicKey,
      PhantomWalletAdapter.connected, invoke, PhantomWalletAdapter._checkConnection,
      PhantomWalletAdapter.accountChanged, PhantomWalletAdapter._handleDisconnect,
      PhantomWalletAdapter._handleDisconnect_when, PhantomWalletAdapter.call_onDisconnect;
    js_step; run_js; subst; cbn in *; try congruence; auto.
Qed.

Lemma invoke_returns (cb : Callback) (arg : option PublicKey) (w : World) (win : Window) :
  window w = Some win ->
  exists w', invoke cb arg w = (Normal tt, w') /\
             window w' = window w /\ heap w' = heap w.
Proof.
  intros Hwin. destruct w as [win0 h [key c f] tr]. cbn in Hwin. subst win0.
  destruct cb; unfold invoke, PhantomWalletAdapter._checkConnection,
    PhantomWalletAdapter.accountChanged, PhantomWalletAdapter._handleDisconnect,
      PhantomWalletAdapter._handleDisconnect_when, PhantomWalletAdapter.call_onDisconnect;
    js_step.
  - eexists; repeat split.
  - match goal with
    | |- context [PhantomWalletAdapter._getProvider ?x] =>
        destruct (_getProvider_cases x) as [[a Hg] | [(r & Hg & Hr) | [Hnone _]]];
        [rewrite Hg | rewrite Hg | discriminate Hnone]
    end; cbn.
    + destruct (h !! a) as [p|]; cbn; [|eexists; repeat split].
      destruct (Provider.isConnected p); cbn; eexists; repeat split.
    + destruct r; try discriminate Hr; cbn; eexists; repeat split.
  - destruct arg; [|destruct f]; cbn; eexists; repeat split.
  - destruct f; cbn; eexists; repeat split.
Qed.

Lemma invoke_all_returns (cbs : list Callback) (arg : option PublicKey)
    (w : World) (win : Window) :
  window w = Some win ->
  exists w', invoke_all cbs arg w = (Normal tt, w') /\
             window w' = window w /\ heap w' = heap w.
Proof.
  revert w. induction cbs as [|cb cbs IH]; intros w Hwin.
  - exists w. repeat split.
  - destruct (invoke_returns cb arg w win Hwin) as (w1 & H1 & Hw1 & Hh1).
    destruct (IH w1) as (w2 & H2 & Hw2 & Hh2); [congruence|].
    exists w2. cbn. unfold bind. rewrite H1, H2. repeat split; congruence.
Qed.

Lemma invoke_all_app (l1 l2 : list Callback) (arg : option PublicKey) (w : World) :
  invoke_all (l1 ++ l2) arg w =
  match invoke_all l1 arg w with
  | (Normal _, w') => invoke_all l2 arg w'
  | (Throw e, w') => (Throw e, w')
  end.
Proof.
  revert w. induction l1 as [|cb l1 IH]; intros w; [reflexivity|].
  cbn. unfold bind. destruct (invoke cb arg w) as [[[]|e] w1]; [apply IH|reflexivity].
Qed.

Lemma listeners_for_app (event : string) (l1 l2 : list (string * Callback)) :
  listeners_for event (l1 ++ l2) = (listeners_for event l1 ++ listeners_for event l2)%list.
Proof. unfold listeners_for. rewrite List.filter_app, List.map_app. reflexivity. Qed.

Lemma listeners_for_installed (l : list (string * Callback)) :
  listeners_for "disconnect"
    ((l ++ [("accountChanged", AccountChangedHandler)]) ++ [("disconnect", DisconnectHandler)]) =
  (listeners_for "disconnect" l ++ [DisconnectHandler])%list.
Proof. rewrite !listeners_for_app, <- app_assoc. reflexivity. Qed.

Arguments listeners_for : simpl never.

Lemma disconnect_event_scenario
    (w : World) (win : Window) (a : nat) (p : Provider.t)
    (turn : Turn ConnectResponse) (key : PublicKey) :
  window w = Some win ->
  phantom win = Namespace (Obj a) ->
  heap w !! a = Some p ->
  settles turn = Resolves {| response_publicKey := key |} ->
  this (perform New w) = fresh_adapter /\
  (_publicKey (this (perform (Connect turn) (perform New w))) = Some key /\
   _connected (this (perform (Connect turn) (perform New w))) = true) /\
  (_publicKey (this (fire a ("disconnect", None)
                       (perform (Connect turn) (perform New w)))) = None /\
   _connected (this (fire a ("disconnect", None)
                       (perform (Connect turn) (perform New w)))) = false).
Proof.
  intros Hwin Hph Hp Hturn.
  destruct w as [win0 h ad tr]. cbn in Hwin, Hp. subst win0.
  destruct win as [ph so ll]. cbn in Hph. subst ph.
  unfold perform, PhantomWalletAdapter.constructor, PhantomWalletAdapter._checkForPhantom,
    PhantomWalletAdapter._registerEvents, PhantomWalletAdapter.connect,
    PhantomWalletAdapter._getProvider.
  js_step. cbn. rewrite Hturn. cbn.
  split; [reflexivity|]. split; [split; reflexivity|].
  unfold fire, emit. js_step. cbn.
  rewrite !list_lookup_alter_eq, Hp. cbn.
  rewrite listeners_for_installed, invoke_all_app.
  match goal with
  | |- context [invoke_all ?l ?arg ?x] =>
      destruct (invoke_all_returns l arg x _ eq_refl) as (w1 & H1 & _ & _);
      rewrite H1
  end.
  cbn. unfold PhantomWalletAdapter._handleDisconnect,
      PhantomWalletAdapter._handleDisconnect_when, PhantomWalletAdapter.call_onDisconnect. js_step. cbn.
  destruct (_onDisconnect (this w1)); split; reflexivity.
Qed.

(** C2 (amended).  Every operation of the adapter and every listener it
    installs keeps "the account is non-null only when connected", except the
    account-change listener when it receives a key while the adapter is not
    connected: that case apart ([by_convention]), the convention is
    preserved.  And with a provider at [window.phantom.solana]: a new adapter
    is disconnected with no account; after [connect()] resolves with a key it
    is connected with that key; after the provider then emits [disconnect] it
    is disconnected with a null account. *)
Theorem convention_kept_and_disconnect_scenario :
  (forall op w,
     account_only_when_connected (this w) = true ->
     by_convention op w = true ->
     account_only_when_connected (this (perform op w)) = true) /\
  (forall w win a p turn key,
     window w = Some win ->
     phantom win = Namespace (Obj a) ->
     heap w !! a = Some p ->
     settles turn = Resolves {| response_publicKey := key |} ->
     this (perform New w) = fresh_adapter /\
     (_publicKey (this (perform (Connect turn) (perform New w))) = Some key /\
      _connected (this (perform (Connect turn) (perform New w))) = true) /\
     (_publicKey (this (fire a ("disconnect", None)
                          (perform (Connect turn) (perform New w)))) = None /\
      _connected (this (fire a ("disconnect", None)
                          (perform (Connect turn) (perform New w)))) = false)).
Proof.
  split.
  - exact perform_keeps_convention.
  - exact disconnect_event_scenario.
Qed.

(** C2, the claim as stated, fails: an adapter that was never connected
    receives an account change carrying a key and ends with a non-null
    account while not connected. *)
Lemma account_change_breaks_convention :
  account_only_when_connected
    (this (perform New (browser_with_wallet RemoveAllMatching))) = true /\
  this (fire 0 ("accountChanged", Some Addr456)
          (perform New (browser_with_wallet RemoveAllMatching))) =
    {| _publicKey := Some Addr456; _connected := false; _onDisconnect := None |} /\
  account_only_when_connected
    (this (fire 0 ("accountChanged", Some Addr456)
             (perform New (browser_with_wallet RemoveAllMatching)))) = false.
Proof. repeat split. Qed.

Lemma convention_kept_and_disconnect_scenario_witness :
  account_only_when_connected
    (this (perform (AccountChangedEvent (Some Addr456))
             (perform (Connect (approves Addr123))
                (perform New (browser_with_wallet RemoveAllMatching))))) = true /\
  this (fire 0 ("disconnect", None)
          (perform (Connect (approves Addr123))
             (perform New (browser_with_wallet RemoveAllMatching)))) = fresh_adapter.
Proof.
  destruct convention_kept_and_disconnect_scenario as [Hkeep Hscenario]. split.
  - apply Hkeep; reflexivity.
  - destruct (Hscenario (browser_with_wallet RemoveAllMatching) _ 0 _
                (approves Addr123) Addr123 eq_refl eq_refl eq_refl eq_refl)
      as (_ & _ & Hkey & Hconnected).
    reflexivity.
Defined.

(** ** The event relay *)

Lemma Callback_eqb_refl (c : Callback) : Callback_eqb c c = true.
Proof. destruct c; cbn; auto using Nat.eqb_refl. Qed.

Lemma registered_refl (event : string) (cb : Callback) :
  registered event cb (event, cb) = true.
Proof. unfold registered. cbn. rewrite String.eqb_refl, Callback_eqb_refl. reflexivity. Qed.

Lemma registered_mentions (fs : list Callback) (event : string) (cb : Callback)
    (r : string * Callback) :
  mentions fs cb = true ->
  mentions fs (snd r) = false ->
  registered event cb r = false.
Proof.
  unfold registered. destruct r as [e c]. cbn. intros Hcb Hr.
  destruct (Callback_eqb cb c) eqn:He; [|apply andb_false_r].
  exfalso. assert (cb = c) as <-; [|congruence].
  destruct cb, c; cbn in He; try discriminate; try reflexivity.
  apply Nat.eqb_eq in He. congruence.
Qed.

Lemma unknown_no_match (fs : list Callback) (event : string) (cb : Callback)
    (l : list (string * Callback)) :
  mentions fs cb = true ->
  forallb (fun r => negb (mentions fs (snd r))) l = true ->
  existsb (registered event cb) l = false.
Proof.
  intros Hcb. induction l as [|r l IH]; cbn; [reflexivity|].
  intros H. apply andb_prop in H as [Hr Hl]. apply negb_true_iff in Hr.
  rewrite (registered_mentions fs event cb r Hcb Hr). cbn. auto.
Qed.

Lemma remove_all_none (event : string) (cb : Callback) (l : list (string * Callback)) :
  existsb (registered event cb) l = false -> remove_all event cb l = l.
Proof.
  unfold remove_all. induction l as [|r l IH]; cbn; [reflexivity|].
  intros H. apply orb_false_elim in H as [Hr Hl]. rewrite Hr. cbn. f_equal. auto.
Qed.

Lemma remove_last_none (event : string) (cb : Callback) (l : list (string * Callback)) :
  existsb (registered event cb) l = false -> remove_last event cb l = l.
Proof.
  induction l as [|r l IH]; cbn; [reflexivity|].
  intros H. apply orb_false_elim in H as [Hr Hl]. rewrite Hl, Hr. reflexivity.
Qed.

Lemma remove_all_appended (event : string) (cb : Callback)
    (l l' : list (string * Callback)) :
  existsb (registered event cb) l = false ->
  existsb (registered event cb) l' = false ->
  remove_all event cb (l ++ (event, cb) :: l') = (l ++ l')%list.
Proof.
  intros Hl Hl'. unfold remove_all. rewrite List.filter_app. cbn.
  rewrite registered_refl. cbn.
  fold (remove_all event cb l). fold (remove_all event cb l').
  rewrite !remove_all_none by assumption. reflexivity.
Qed.

Lemma remove_last_appended (event : string) (cb : Callback)
    (l l' : list (string * Callback)) :
  existsb (registered event cb) l' = false ->
  remove_last event cb (l ++ (event, cb) :: l') = (l ++ l')%list.
Proof.
  intros Hl'. induction l as [|r l IH]; cbn.
  - rewrite Hl', registered_refl. reflexivity.
  - rewrite existsb_app. cbn. rewrite registered_refl, orb_true_r. cbn.
    f_equal. exact IH.
Qed.

Lemma filter_twice {A} (f g : A -> bool) (l : list A) :
  List.filter f (List.filter g l) = List.filter (fun x => g x && f x) l.
Proof.
  induction l as [|x l IH]; cbn; [reflexivity|].
  destruct (g x); cbn; [destruct (f x)|]; cbn; congruence.
Qed.

Lemma mentions_onConnect (c : PhantomWallet.Callbacks) (f : Callback) :
  PhantomWallet.onConnect c = Some f -> mentions (functions c) f = true.
Proof.
  intros H. unfold mentions, functions. rewrite H. cbn.
  rewrite Callback_eqb_refl. reflexivity.
Qed.

Lemma mentions_onDisconnect (c : PhantomWallet.Callbacks) (f : Callback) :
  PhantomWallet.onDisconnect c = Some f -> mentions (functions c) f = true.
Proof.
  intros H. unfold mentions, functions. rewrite H, !existsb_app. cbn.
  rewrite Callback_eqb_refl. cbn. apply orb_true_r.
Qed.

Lemma mentions_onAccountChange (c : PhantomWallet.Callbacks) (f : Callback) :
  PhantomWallet.onAccountChange c = Some f -> mentions (functions c) f = true.
Proof.
  intros H. unfold mentions, functions. rewrite H, !existsb_app. cbn.
  rewrite Callback_eqb_refl. cbn. rewrite !orb_true_r. reflexivity.
Qed.

Arguments remove_all : simpl never.
Arguments remove_last : simpl never.
Arguments remove : simpl never.

Lemma remove_none (policy : Removal) (event : string) (cb : Callback)
    (l : list (string * Callback)) :
  existsb (registered event cb) l = false -> remove policy event cb l = l.
Proof. destruct policy; [apply remove_all_none | apply remove_last_none]. Qed.

Lemma remove_appended (policy : Removal) (event : string) (cb : Callback)
    (l l' : list (string * Callback)) :
  existsb (registered event cb) l = false ->
  existsb (registered event cb) l' = false ->
  remove policy event cb (l ++ (event, cb) :: l') = (l ++ l')%list.
Proof.
  intros Hl Hl'. destruct policy;
    [apply remove_all_appended | apply remove_last_appended]; assumption.
Qed.

Lemma subscribed_listeners (c : PhantomWallet.Callbacks) (p : Provider.t) :
  subscribed c p = Provider.with_listeners (Provider.listeners p ++ registrations c) p.
Proof.
  destruct p as [flag ic key L policy].
  destruct c as [[c1|] [c2|] [c3|]]; unfold subscribed, registrations, on; cbn;
    rewrite <- ?app_assoc, ?app_nil_r; reflexivity.
Qed.

Lemma unsubscribed_listeners (c : PhantomWallet.Callbacks) (p : Provider.t) :
  unsubscribed c p =
  Provider.with_listeners (after_removals (Provider.removal p) c (Provider.listeners p)) p.
Proof.
  destruct p as [flag ic key L policy].
  destruct c as [[c1|] [c2|] [c3|]]; reflexivity.
Qed.

Ltac unknown_side HL :=
  first [ eapply unknown_no_match; [|exact HL];
          first [ apply mentions_onConnect; reflexivity
                | apply mentions_onDisconnect; reflexivity
                | apply mentions_onAccountChange; reflexivity ]
        | vm_compute; reflexivity ].

(** Tearing down what was just set up restores the list, under either
    removal discipline, when the functions were not registered before. *)
Lemma removals_undo_registrations (policy : Removal) (c : PhantomWallet.Callbacks)
    (L : list (string * Callback)) :
  forallb (fun r => negb (mentions (functions c) (snd r))) L = true ->
  after_removals policy c (L ++ registrations c) = L.
Proof.
  intros HL.
  destruct c as [[c1|] [c2|] [c3|]]; unfold after_removals, registrations; cbn;
    repeat (rewrite remove_appended; [ cbn [app] | unknown_side HL .. ]);
    rewrite ?app_nil_r; reflexivity.
Qed.

Lemma removals_of_unknown (policy : Removal) (c : PhantomWallet.Callbacks)
    (L : list (string * Callback)) :
  forallb (fun r => negb (mentions (functions c) (snd r))) L = true ->
  after_removals policy c L = L.
Proof.
  intros HL.
  destruct c as [[c1|] [c2|] [c3|]]; unfold after_removals; cbn;
    repeat (rewrite (remove_none _ _ _ L); [ | unknown_side HL ]); reflexivity.
Qed.

Lemma removals_idempotent (c : PhantomWallet.Callbacks) (l : list (string * Callback)) :
  after_removals RemoveAllMatching c (after_removals RemoveAllMatching c l) =
  after_removals RemoveAllMatching c l.
Proof.
  destruct c as [[c1|] [c2|] [c3|]]; unfold after_removals, remove, remove_all; cbn;
    rewrite ?filter_twice; try reflexivity;
    apply List.filter_ext; intros r;
    repeat match goal with
           | |- context [negb ?b] => destruct b; cbn
           end; reflexivity.
Qed.

Lemma unsubscribed_subscribed (c : PhantomWallet.Callbacks) (p : Provider.t) :
  unknown_to (functions c) p = true ->
  unsubscribed c (subscribed c p) = p.
Proof.
  unfold unknown_to. intros HL.
  rewrite subscribed_listeners, unsubscribed_listeners.
  destruct p as [flag ic key L policy]. cbn in *.
  unfold Provider.with_listeners. cbn.
  rewrite removals_undo_registrations by exact HL. reflexivity.
Qed.

Lemma unsubscribed_unknown (c : PhantomWallet.Callbacks) (p : Provider.t) :
  unknown_to (functions c) p = true ->
  unsubscribed c p = p.
Proof.
  unfold unknown_to. intros HL. rewrite unsubscribed_listeners.
  destruct p as [flag ic key L policy]. cbn in *.
  unfold Provider.with_listeners. cbn.
  rewrite removals_of_unknown by exact HL. reflexivity.
Qed.

Lemma unsubscribed_idempotent (c : PhantomWallet.Callbacks) (p : Provider.t) :
  Provider.removal p = RemoveAllMatching ->
  unsubscribed c (unsubscribed c p) = unsubscribed c p.
Proof.
  intros Hp. rewrite !unsubscribed_listeners.
  destruct p as [flag ic key L policy]. cbn in *. subst policy.
  unfold Provider.with_listeners. cbn.
  rewrite removals_idempotent. reflexivity.
Qed.

Lemma unsubscribed_settles (c : PhantomWallet.Callbacks) (p : Provider.t) :
  Provider.removal p = RemoveAllMatching \/ unknown_to (functions c) p = true ->
  unsubscribed c (unsubscribed c (subscribed c p)) = unsubscribed c (subscribed c p).
Proof.
  intros [Hall | Hnew].
  - apply unsubscribed_idempotent. rewrite subscribed_listeners.
    destruct p; exact Hall.
  - rewrite (unsubscribed_subscribed c p Hnew). apply unsubscribed_unknown, Hnew.
Qed.

(** What the two source functions do to the world. *)
Lemma setup_effect (c : PhantomWallet.Callbacks) (w : World) (win : Window) (a : nat) :
  window w = Some win ->
  phantom win = Namespace (Obj a) ->
  exists new,
    PhantomWallet.setupPhantomEventListeners c w =
    (Normal (PhantomWallet.RemoveListeners a c),
     Build_World (window w) (alter (subscribed c) a (heap w)) (this w)
       (trace w ++ new)%list) /\
    forall fs, silent fs new = true.
Proof.
  intros Hwin Hph.
  destruct w as [win0 h ad tr]. cbn in Hwin. subst win0.
  destruct win as [ph so ll]. cbn in Hph. subst ph.
  unfold PhantomWallet.setupPhantomEventListeners, PhantomWallet.getPhantomProvider.
  destruct c as [[c1|] [c2|] [c3|]]; js_step; cbn;
    rewrite ?list_alter_alter_eq, <- ?app_assoc; cbn [app];
    (eexists; split;
     [ repeat f_equal; first [ reflexivity | symmetry; apply list_alter_id; reflexivity ]
     | intros fs; reflexivity ]).
Qed.

Lemma teardown_effect (c : PhantomWallet.Callbacks) (a : nat) (w : World) :
  PhantomWallet.teardown (PhantomWallet.RemoveListeners a c) w =
  (Normal tt,
   Build_World (window w) (alter (unsubscribed c) a (heap w)) (this w)
     (trace w ++ [ConsoleLog "[PHANTOM] Removing Phantom wallet event listeners"])%list).
Proof.
  destruct w as [win h ad tr].
  unfold PhantomWallet.teardown.
  destruct c as [[c1|] [c2|] [c3|]]; js_step; cbn;
    rewrite ?list_alter_alter_eq;
    repeat f_equal; first [ reflexivity | symmetry; apply list_alter_id; reflexivity ].
Qed.

Lemma teardown_times_frame (n : nat) (f : PhantomWallet.Teardown) (w : World) :
  window (teardown_times n f w) = window w /\
  this (teardown_times n f w) = this w.
Proof.
  revert w. induction n as [|n IH]; intros w; [split; reflexivity|].
  change (teardown_times (S n) f w)
    with (teardown_times n f (snd (PhantomWallet.teardown f w))).
  destruct (IH (snd (PhantomWallet.teardown f w))) as [Hw Ht].
  rewrite Hw, Ht. destruct f as [|a c]; [split; reflexivity|].
  rewrite teardown_effect. split; reflexivity.
Qed.

Lemma teardown_times_heap (c : PhantomWallet.Callbacks) (a n : nat) (w : World)
    (q : Provider.t) :
  heap w !! a = Some q ->
  unsubscribed c (unsubscribed c q) = unsubscribed c q ->
  heap (teardown_times (S n) (PhantomWallet.RemoveListeners a c) w) =
  alter (unsubscribed c) a (heap w).
Proof.
  revert w q. induction n as [|n IH]; intros w q Hq Hstable.
  - change (teardown_times 1 (PhantomWallet.RemoveListeners a c) w)
      with (snd (PhantomWallet.teardown (PhantomWallet.RemoveListeners a c) w)).
    rewrite teardown_effect. reflexivity.
  - change (teardown_times (S (S n)) (PhantomWallet.RemoveListeners a c) w)
      with (teardown_times (S n) (PhantomWallet.RemoveListeners a c)
              (snd (PhantomWallet.teardown (PhantomWallet.RemoveListeners a c) w))).
    rewrite teardown_effect. cbn [snd].
    rewrite (IH _ (unsubscribed c q)).
    + cbn [heap]. rewrite list_alter_alter_eq.
      apply list_alter_ext; [|reflexivity].
      intros x Hx. cbn. congruence.
    + cbn [heap]. rewrite list_lookup_alter_eq, Hq. reflexivity.
    + rewrite Hstable. exact Hstable.
Qed.




(** Events reach only what is registered. *)
Lemma invoke_silent (fs : list Callback) (cb : Callback) (arg : option PublicKey)
    (w : World) :
  mentions fs cb = false ->
  unknown_to_adapter fs (this w) = true ->
  heap (snd (invoke cb arg w)) = heap w /\
  _onDisconnect (this (snd (invoke cb arg w))) = _onDisconnect (this w) /\
  exists new, trace (snd (invoke cb arg w)) = (trace w ++ new)%list /\
              silent fs new = true.
Proof.
  unfold unknown_to_adapter.
  destruct w as [win h [key c f] tr]. cbn. intros Hcb Hf.
  destruct cb; unfold invoke, PhantomWalletAdapter._checkConnection,
    PhantomWalletAdapter.accountChanged, PhantomWalletAdapter._handleDisconnect,
      PhantomWalletAdapter._handleDisconnect_when, PhantomWalletAdapter.call_onDisconnect;
    js_step.
  - cbn. repeat split. eexists; split; [reflexivity|]. cbn. rewrite Hcb. reflexivity.
  - match goal with
    | |- context [PhantomWalletAdapter._getProvider ?x] =>
        destruct (_getProvider_cases x) as [[a Hg] | [(r & Hg & Hr) | [_ Hg]]];
        rewrite Hg
    end; cbn.
    + destruct (h !! a) as [p|]; cbn;
        [destruct (Provider.isConnected p); cbn|];
        repeat split; eexists; split;
          first [ reflexivity | symmetry; apply app_nil_r ].
    + destruct r; try discriminate Hr; cbn;
        repeat split; eexists; split;
          first [ reflexivity | symmetry; apply app_nil_r ].
    + repeat split; eexists; split; first [ reflexivity | symmetry; apply app_nil_r ].
  - destruct arg as [pk|]; [|destruct f as [id|]]; cbn; rewrite <- ?app_assoc;
      repeat split; eexists; (split; [reflexivity|]); cbn; rewrite ?Hf; reflexivity.
  - destruct f as [id|]; cbn; rewrite <- ?app_assoc;
      repeat split; eexists; (split; [reflexivity|]); cbn; rewrite ?Hf; reflexivity.
Qed.

Lemma silent_app (fs : list Callback) (l1 l2 : list Effect) :
  silent fs l1 = true -> silent fs l2 = true -> silent fs (l1 ++ l2) = true.
Proof. unfold silent. rewrite forallb_app. intros -> ->. reflexivity. Qed.

Lemma invoke_all_silent (fs : list Callback) (cbs : list Callback)
    (arg : option PublicKey) (w : World) :
  forallb (fun cb => negb (mentions fs cb)) cbs = true ->
  unknown_to_adapter fs (this w) = true ->
  heap (snd (invoke_all cbs arg w)) = heap w /\
  _onDisconnect (this (snd (invoke_all cbs arg w))) = _onDisconnect (this w) /\
  exists new, trace (snd (invoke_all cbs arg w)) = (trace w ++ new)%list /\
              silent fs new = true.
Proof.
  revert w. induction cbs as [|cb cbs IH]; intros w Hcbs Hf.
  - cbn. repeat split. exists []. split; [symmetry; apply app_nil_r | reflexivity].
  - cbn in Hcbs. apply andb_prop in Hcbs as [Hcb Hrest]. apply negb_true_iff in Hcb.
    destruct (invoke_silent fs cb arg w Hcb Hf) as (Hh & Hd & new1 & Ht & Hs).
    cbn [invoke_all]. unfold bind.
    destruct (invoke cb arg w) as [[[]|e] w1]; cbn [snd] in *.
    + assert (Hf1 : unknown_to_adapter fs (this w1) = true).
      { unfold unknown_to_adapter in *. rewrite Hd. exact Hf. }
      destruct (IH w1 Hrest Hf1) as (Hh2 & Hd2 & new2 & Ht2 & Hs2).
      repeat split; try congruence.
      exists (new1 ++ new2)%list. split; [|apply silent_app; assumption].
      rewrite Ht2, Ht, app_assoc. reflexivity.
    + repeat split; try assumption. exists new1. split; assumption.
Qed.

Lemma listeners_for_unknown (fs : list Callback) (event : string)
    (l : list (string * Callback)) :
  forallb (fun r => negb (mentions fs (snd r))) l = true ->
  forallb (fun cb => negb (mentions fs cb)) (listeners_for event l) = true.
Proof.
  unfold listeners_for. induction l as [|r l IH]; cbn; [reflexivity|].
  intros H. apply andb_prop in H as [Hr Hl].
  destruct (String.eqb event (fst r)); cbn; [rewrite Hr|]; auto.
Qed.

Lemma fire_all_silent (fs : list Callback) (a : nat) (p : Provider.t)
    (evs : list (string * option PublicKey)) (w : World) :
  heap w !! a = Some p ->
  unknown_to fs p = true ->
  unknown_to_adapter fs (this w) = true ->
  exists new, trace (fire_all a evs w) = (trace w ++ new)%list /\ silent fs new = true.
Proof.
  revert w. induction evs as [|ev evs IH]; intros w Hp Hfs Hf.
  - exists []. split; [symmetry; apply app_nil_r | reflexivity].
  - cbn [fire_all fold_left].
    assert (Hstep : heap (fire a ev w) = heap w /\
                    _onDisconnect (this (fire a ev w)) = _onDisconnect (this w) /\
                    exists new, trace (fire a ev w) = (trace w ++ new)%list /\
                                silent fs new = true).
    { unfold fire, emit, read_provider, bind. rewrite Hp.
      apply invoke_all_silent; [|exact Hf].
      apply listeners_for_unknown. exact Hfs. }
    destruct Hstep as (Hh & Hd & new1 & Ht & Hs).
    destruct (IH (fire a ev w)) as (new2 & Ht2 & Hs2).
    + rewrite Hh. exact Hp.
    + exact Hfs.
    + unfold unknown_to_adapter in *. rewrite Hd. exact Hf.
    + exists (new1 ++ new2)%list. split; [|apply silent_app; assumption].
      fold (fire_all a evs (fire a ev w)). rewrite Ht2, Ht, app_assoc. reflexivity.
Qed.

(** C6 (amended).  With a provider at [window.phantom.solana] and callbacks
    that are not registered with it independently of the subscription, nor
    held as its [onDisconnect] callback by the adapter listening to the
    provider (at most one adapter does: a [World] carries the fields of
    one): once the teardown returned by [setupPhantomEventListeners] has
    been called, one or more times, no sequence of events emitted by the
    provider invokes any of the callbacks again. *)
Theorem no_callback_after_teardown
    (c : PhantomWallet.Callbacks) (w : World) (win : Window) (a : nat) (p : Provider.t)
    (n : nat) (evs : list (string * option PublicKey)) :
  window w = Some win ->
  phantom win = Namespace (Obj a) ->
  heap w !! a = Some p ->
  unknown_to (functions c) p = true ->
  at_most_one_adapter p = true ->
  unknown_to_adapter (functions c) (this w) = true ->
  exists w1,
    PhantomWallet.setupPhantomEventListeners c w =
      (Normal (PhantomWallet.RemoveListeners a c), w1) /\
    exists new,
      trace (fire_all a evs (teardown_times (S n) (PhantomWallet.RemoveListeners a c) w1)) =
      (trace (teardown_times (S n) (PhantomWallet.RemoveListeners a c) w1) ++ new)%list /\
      silent (functions c) new = true.
Proof.
  intros Hwin Hph Hp Hnew _ Hadapter.
  destruct (setup_effect c w win a Hwin Hph) as (new0 & Hsetup & _).
  eexists. split; [exact Hsetup|].
  set (w1 := Build_World (window w) (alter (subscribed c) a (heap w)) (this w)
               (trace w ++ new0)).
  assert (Hq : heap w1 !! a = Some (subscribed c p)).
  { cbn. rewrite list_lookup_alter_eq, Hp. reflexivity. }
  assert (Hheap : heap (teardown_times (S n) (PhantomWallet.RemoveListeners a c) w1) = heap w).
  { rewrite (teardown_times_heap c a n w1 _ Hq
               (unsubscribed_settles c p (or_intror Hnew))).
    cbn [heap w1]. rewrite list_alter_alter_eq.
    rewrite (list_alter_ext _ id (heap w) (heap w) a).
    - apply list_alter_id. reflexivity.
    - intros x Hx. cbn. rewrite Hx in Hp. injection Hp as ->.
      apply unsubscribed_subscribed, Hnew.
    - reflexivity. }
  destruct (teardown_times_frame (S n) (PhantomWallet.RemoveListeners a c) w1) as [_ Hthis].
  apply (fire_all_silent (functions c) a p).
  - rewrite Hheap. exact Hp.
  - exact Hnew.
  - rewrite Hthis. exact Hadapter.
Qed.

(** The callbacks are reached before the teardown, and not after it. *)
Lemma no_callback_after_teardown_witness :
  trace (fire_all 0 [("connect", Some Addr123); ("disconnect", None)]
           (snd (PhantomWallet.setupPhantomEventListeners
                   {| PhantomWallet.onConnect := Some (UserFn 1);
                      PhantomWallet.onDisconnect := Some (UserFn 2);
                      PhantomWallet.onAccountChange := Some (UserFn 3) |}
                   (browser_with_wallet RemoveLastMatching)))) =
    [ConsoleLog "[PHANTOM] Phantom provider retrieved";
     ConsoleLog "[PHANTOM] Setting up Phantom wallet event listeners";
     ConsoleLog "[PHANTOM] Connect event listener added";
     ConsoleLog "[PHANTOM] Disconnect event listener added";
     ConsoleLog "[PHANTOM] Account change event listener added";
     Invoke (UserFn 1) (Some Addr123);
     Invoke (UserFn 2) None] /\
  exists w1,
    PhantomWallet.setupPhantomEventListeners
      {| PhantomWallet.onConnect := Some (UserFn 1);
         PhantomWallet.onDisconnect := Some (UserFn 2);
         PhantomWallet.onAccountChange := Some (UserFn 3) |}
      (browser_with_wallet RemoveLastMatching) =
      (Normal (PhantomWallet.RemoveListeners 0
                 {| PhantomWallet.onConnect := Some (UserFn 1);
                    PhantomWallet.onDisconnect := Some (UserFn 2);
                    PhantomWallet.onAccountChange := Some (UserFn 3) |}), w1) /\
    exists new,
      trace (fire_all 0 [("connect", Some Addr123); ("disconnect", None);
                         ("accountChanged", Some Addr456)]
               (teardown_times 1
                  (PhantomWallet.RemoveListeners 0
                     {| PhantomWallet.onConnect := Some (UserFn 1);
                        PhantomWallet.onDisconnect := Some (UserFn 2);
                        PhantomWallet.onAccountChange := Some (UserFn 3) |}) w1)) =
      (trace (teardown_times 1
                (PhantomWallet.RemoveListeners 0
                   {| PhantomWallet.onConnect := Some (UserFn 1);
                      PhantomWallet.onDisconnect := Some (UserFn 2);
                      PhantomWallet.onAccountChange := Some (UserFn 3) |}) w1) ++ new)%list /\
      silent [UserFn 1; UserFn 2; UserFn 3] new = true.
Proof.
  split; [vm_compute; reflexivity|].
  apply (no_callback_after_teardown
           {| PhantomWallet.onConnect := Some (UserFn 1);
              PhantomWallet.onDisconnect := Some (UserFn 2);
              PhantomWallet.onAccountChange := Some (UserFn 3) |}
           (browser_with_wallet RemoveLastMatching) _ 0 _ 0
           [("connect", Some Addr123); ("disconnect", None);
            ("accountChanged", Some Addr456)]
           eq_refl eq_refl eq_refl eq_refl eq_refl eq_refl).
Defined.

(** C6, the claim as stated, fails.  On an emitter whose [removeListener]
    removes one registration, a function that another script had registered
    too is still invoked after the teardown; and a function that was also
    handed to the adapter's [onDisconnect] is still invoked, by the
    adapter's own listener, when the provider emits ['disconnect']. *)
Lemma callback_after_teardown :
  trace (fire 0 ("connect", Some Addr123)
           (teardown_times 1 (PhantomWallet.RemoveListeners 0 connect_only)
              (snd (PhantomWallet.setupPhantomEventListeners connect_only
                      (browser_with_subscriber RemoveLastMatching))))) =
    [ConsoleLog "[PHANTOM] Phantom provider retrieved";
     ConsoleLog "[PHANTOM] Setting up Phantom wallet event listeners";
     ConsoleLog "[PHANTOM] Connect event listener added";
     ConsoleLog "[PHANTOM] Removing Phantom wallet event listeners";
     Invoke (UserFn 1) (Some Addr123)] /\
  trace (fire 0 ("disconnect", None)
           (teardown_times 1 (PhantomWallet.RemoveListeners 0 disconnect_only)
              (snd (PhantomWallet.setupPhantomEventListeners disconnect_only
                      (perform (OnDisconnect 2)
                         (perform New (browser_with_wallet RemoveAllMatching))))))) =
    [ConsoleLog "[PHANTOM] Phantom provider retrieved";
     ConsoleLog "[PHANTOM] Setting up Phantom wallet event listeners";
     ConsoleLog "[PHANTOM] Disconnect event listener added";
     ConsoleLog "[PHANTOM] Removing Phantom wallet event listeners";
     Invoke (UserFn 2) None;
     ConsoleLog "Disconnected from Phantom wallet"].
Proof. split; reflexivity. Qed.

(** The teardown reads the callbacks object when it is called: a member the
    caller has cleared after the subscription is not unsubscribed, and the
    function is invoked by the next event. *)
Lemma teardown_reads_the_object_when_called :
  trace (fire 0 ("connect", Some Addr123)
           (teardown_times 1
              (PhantomWallet.RemoveListeners 0
                 {| PhantomWallet.onConnect := None;
                    PhantomWallet.onDisconnect := None;
                    PhantomWallet.onAccountChange := None |})
              (snd (PhantomWallet.setupPhantomEventListeners connect_only
                      (browser_with_wallet RemoveAllMatching))))) =
    [ConsoleLog "[PHANTOM] Phantom provider retrieved";
     ConsoleLog "[PHANTOM] Setting up Phantom wallet event listeners";
     ConsoleLog "[PHANTOM] Connect event listener added";
     ConsoleLog "[PHANTOM] Removing Phantom wallet event listeners";
     Invoke (UserFn 1) (Some Addr123)].
Proof. reflexivity. Qed.

(** * Further properties of the two modules *)

Lemma calls_app (l1 l2 : list Effect) : calls (l1 ++ l2) = (calls l1 ++ calls l2)%list.
Proof. apply List.filter_app. Qed.

Ltac count_calls := rewrite ?calls_app; cbn [calls List.filter is_call app]; rewrite ?app_nil_r.

(** ** Forwarding to the provider ([phantomWallet.js]) *)

(** X1.  With a provider at [window.phantom.solana], each of the five functions
    of [phantomWallet.js] that talk to the provider makes exactly one
    provider call, whatever the provider's connection state, and completes
    as the provider settles: it returns what the promise resolved with (the
    key's string, the signed transaction, the signature) and throws exactly
    what it was rejected with. *)
Theorem phantomWallet_forwards
    (w : World) (win : Window) (a : nat) (tokenAddress : string) (transaction : Transaction)
    (c : Turn ConnectResponse) (u : Turn unit) (t : Turn Transaction)
    (s : Turn PhantomWallet.SendResponse) :
  window w = Some win ->
  phantom win = Namespace (Obj a) ->
  (calls (trace (snd (PhantomWallet.connectPhantomWallet c w))) =
     (calls (trace w) ++ [CallConnect a])%list /\
   fst (PhantomWallet.connectPhantomWallet c w) =
     match settles c with
     | Resolves response => Normal (toString (response_publicKey response))
     | Rejects e => Throw e
     end) /\
  (calls (trace (snd (PhantomWallet.disconnectPhantomWallet u w))) =
     (calls (trace w) ++ [CallDisconnect a])%list /\
   fst (PhantomWallet.disconnectPhantomWallet u w) =
     match settles u with Resolves _ => Normal tt | Rejects e => Throw e end) /\
  (calls (trace (snd (PhantomWallet.addTokenToPhantomWallet tokenAddress u w))) =
     (calls (trace w) ++ [CallRequest a "wallet_watchAsset" "SPL" tokenAddress])%list /\
   fst (PhantomWallet.addTokenToPhantomWallet tokenAddress u w) =
     match settles u with Resolves _ => Normal tt | Rejects e => Throw e end) /\
  (calls (trace (snd (PhantomWallet.signTransaction transaction t w))) =
     (calls (trace w) ++ [CallSign a "signTransaction"])%list /\
   fst (PhantomWallet.signTransaction transaction t w) =
     match settles t with Resolves signed => Normal signed | Rejects e => Throw e end) /\
  (calls (trace (snd (PhantomWallet.signAndSendTransaction transaction s w))) =
     (calls (trace w) ++ [CallSign a "signAndSendTransaction"])%list /\
   fst (PhantomWallet.signAndSendTransaction transaction s w) =
     match settles s with
     | Resolves response => Normal (PhantomWallet.signature response)
     | Rejects e => Throw e
     end).
Proof.
  intros Hwin Hph.
  destruct w as [win0 h ad tr]. cbn in Hwin. subst win0.
  destruct win as [ph so ll]. cbn in Hph. subst ph.
  unfold PhantomWallet.connectPhantomWallet, PhantomWallet.disconnectPhantomWallet,
    PhantomWallet.addTokenToPhantomWallet, PhantomWallet.signTransaction,
    PhantomWallet.signAndSendTransaction, PhantomWallet.getPhantomProvider.
  js_step. cbn.
  repeat split;
    match goal with
    | |- context [settles ?x] => destruct (settles x) as [?|?]
    end; cbn; count_calls; try reflexivity;
    match goal with
    | v : unit |- _ => destruct v; reflexivity
    end.
Qed.

Lemma phantomWallet_forwards_witness :
  fst (PhantomWallet.signAndSendTransaction "tx" (sends "5VERv8")
         (browser_with_wallet RemoveAllMatching)) = Normal "5VERv8" /\
  fst (PhantomWallet.connectPhantomWallet declines (browser_with_wallet RemoveAllMatching)) =
    Throw (Rejection 4001 "User rejected the request.").
Proof.
  destruct (phantomWallet_forwards (browser_with_wallet RemoveAllMatching) _ 0
              "Mint111" "tx" declines complies (signs "tx") (sends "5VERv8")
              eq_refl eq_refl) as ((_ & Hc) & _ & _ & _ & (_ & Hs)).
  split; [exact Hs | exact Hc].
Defined.

(** X2.  Without a provider, the two signing functions throw the not-installed
    error and make no provider call; nothing but the console is touched. *)
Theorem phantomWallet_signing_unavailable
    (w : World) (transaction : Transaction) (t : Turn Transaction)
    (s : Turn PhantomWallet.SendResponse) :
  fst (PhantomWallet.getPhantomProvider w) = Normal Null ->
  PhantomWallet.signTransaction transaction t w =
    (Throw (Error "Phantom wallet not installed"),
     Build_World (window w) (heap w) (this w)
       (trace w ++ [ConsoleLog "[PHANTOM] Phantom provider not found";
                    ConsoleLog "[PHANTOM] Error signing transaction:"])%list) /\
  PhantomWallet.signAndSendTransaction transaction s w =
    (Throw (Error "Phantom wallet not installed"),
     Build_World (window w) (heap w) (this w)
       (trace w ++ [ConsoleLog "[PHANTOM] Phantom provider not found";
                    ConsoleLog "[PHANTOM] Error signing and sending transaction:"])%list).
Proof.
  intros Hnull.
  split;
    unfold PhantomWallet.signTransaction, PhantomWallet.signAndSendTransaction, try_catch,
      bind at 1;
    rewrite getPhantomProvider_eq in Hnull |- *;
    (destruct w as [[win|] h ad tr]; cbn in *;
     [ destruct (truthy (phantom_solana win)) eqn:Ht;
       [ apply truthy_Obj in Ht as [a Ha]; cbn in Hnull; congruence
       | js_step; cbn; rewrite <- !app_assoc; reflexivity ]
     | js_step; cbn; rewrite <- !app_assoc; reflexivity ]).
Qed.

Lemma phantomWallet_signing_unavailable_witness :
  errorKind (Error "Phantom wallet not installed") = WalletUnavailable /\
  fst (PhantomWallet.signTransaction "tx" (signs "tx") server_side) =
    Throw (Error "Phantom wallet not installed").
Proof.
  split; [reflexivity|].
  destruct (phantomWallet_signing_unavailable server_side "tx" (signs "tx") (sends "s")
              eq_refl) as [-> _].
  reflexivity.
Defined.

(** ** Signing through the adapter *)

Lemma adapter_signing_keeps_fields
    (w : World) (transaction : Transaction) (transactions : list Transaction)
    (t : Turn Transaction) (ts : Turn (list Transaction)) :
  this (snd (PhantomWalletAdapter.signTransaction transaction t w)) = this w /\
  this (snd (PhantomWalletAdapter.signAllTransactions transactions ts w)) = this w.
Proof.
  split;
    unfold PhantomWalletAdapter.signTransaction, PhantomWalletAdapter.signAllTransactions,
      PhantomWalletAdapter.connected, try_catch, bind at 1;
    (destruct (_getProvider_cases w) as [[a Hg] | [(r & Hg & Hr) | [_ Hg]]]; rewrite Hg;
     [ js_step; destruct (_connected (this w)); cbn;
       [ match goal with |- context [settles ?x] => destruct (settles x) end | ];
       reflexivity
     | destruct r; try discriminate Hr; reflexivity
     | reflexivity ]).
Qed.

(** X3.  The adapter's [signTransaction] and [signAllTransactions] never change
    the adapter's fields.  In a browsing context, while the adapter is not
    connected they throw [Error("Wallet not connected")] without any provider
    call; once it is connected, with the provider at [window.phantom.solana],
    they make exactly one provider call and complete as the provider
    settles. *)
Theorem adapter_signing_needs_session
    (w : World) (win : Window) (transaction : Transaction) (transactions : list Transaction)
    (t : Turn Transaction) (ts : Turn (list Transaction)) :
  window w = Some win ->
  (this (snd (PhantomWalletAdapter.signTransaction transaction t w)) = this w /\
   this (snd (PhantomWalletAdapter.signAllTransactions transactions ts w)) = this w) /\
  (_connected (this w) = false ->
   PhantomWalletAdapter.signTransaction transaction t w =
     (Throw (Error "Wallet not connected"),
      Build_World (window w) (heap w) (this w)
        (trace w ++ [ConsoleError "Error signing transaction:"])%list) /\
   PhantomWalletAdapter.signAllTransactions transactions ts w =
     (Throw (Error "Wallet not connected"),
      Build_World (window w) (heap w) (this w)
        (trace w ++ [ConsoleError "Error signing transactions:"])%list)) /\
  (forall a,
     _connected (this w) = true ->
     phantom win = Namespace (Obj a) ->
     (calls (trace (snd (PhantomWalletAdapter.signTransaction transaction t w))) =
        (calls (trace w) ++ [CallSign a "signTransaction"])%list /\
      fst (PhantomWalletAdapter.signTransaction transaction t w) =
        match settles t with Resolves signed => Normal signed | Rejects e => Throw e end) /\
     (calls (trace (snd (PhantomWalletAdapter.signAllTransactions transactions ts w))) =
        (calls (trace w) ++ [CallSign a "signAllTransactions"])%list /\
      fst (PhantomWalletAdapter.signAllTransactions transactions ts w) =
        match settles ts with Resolves signed => Normal signed | Rejects e => Throw e end)).
Proof.
  intros Hwin. split; [apply adapter_signing_keeps_fields|]. split.
  - intros Hc.
    split;
      unfold PhantomWalletAdapter.signTransaction, PhantomWalletAdapter.signAllTransactions,
        PhantomWalletAdapter.connected, try_catch, bind at 1;
      rewrite (_getProvider_eq w win Hwin); js_step; rewrite Hc;
      match goal with
      | |- (let (_, _) := match ?r with Null => _ | Undefined => _ | Obj _ => _ end w in _) = _ =>
          destruct r
      end; reflexivity.
  - intros a Hc Hph.
    destruct w as [win0 h [key c f] tr]. cbn in Hwin, Hc. subst win0 c.
    destruct win as [ph so ll]. cbn in Hph. subst ph.
    unfold PhantomWalletAdapter.signTransaction, PhantomWalletAdapter.signAllTransactions,
      PhantomWalletAdapter.connected, PhantomWalletAdapter._getProvider.
    js_step. cbn.
    repeat split;
      match goal with
      | |- context [settles ?x] => destruct (settles x)
      end; cbn; count_calls; reflexivity.
Qed.

Lemma adapter_signing_needs_session_witness :
  fst (PhantomWalletAdapter.signTransaction "tx" (signs "signed")
         (browser_with_wallet RemoveAllMatching)) = Throw (Error "Wallet not connected") /\
  fst (PhantomWalletAdapter.signTransaction "tx" (signs "signed")
         (perform (Connect (approves Addr123)) (browser_with_wallet RemoveAllMatching))) =
    Normal "signed".
Proof.
  split.
  - destruct (adapter_signing_needs_session (browser_with_wallet RemoveAllMatching) _
                "tx" [] (signs "signed") declines eq_refl) as (_ & H & _).
    destruct (H eq_refl) as [-> _]. reflexivity.
  - destruct (adapter_signing_needs_session
                (perform (Connect (approves Addr123)) (browser_with_wallet RemoveAllMatching)) _
                "tx" [] (signs "signed") declines eq_refl) as (_ & _ & H).
    destruct (H 0 eq_refl eq_refl) as ((_ & ->) & _). reflexivity.
Defined.

(** ** Detection *)

(** X4.  [isPhantomInstalled()] never throws, and whenever it returns [true],
    [getPhantomProvider()] called in the same context returns an object,
    the one carrying the [isPhantom] flag. *)
Theorem installed_implies_provider (w : World) :
  (exists b, fst (PhantomWallet.isPhantomInstalled w) = Normal b) /\
  (fst (PhantomWallet.isPhantomInstalled w) = Normal true ->
   exists a, fst (PhantomWallet.getPhantomProvider w) = Normal (Obj a) /\
             has_flag (heap w) (Obj a) = true).
Proof.
  rewrite getPhantomProvider_eq.
  destruct w as [[win|] h ad tr]; unfold PhantomWallet.isPhantomInstalled; js_step; cbn.
  - destruct (phantom_solana win) as [| |a]; cbn.
    + split; [eauto|discriminate].
    + split; [eauto|discriminate].
    + js_step. cbn.
      destruct (h !! a) as [p|] eqn:Hl; cbn; [|split; [eauto|discriminate]].
      split; [eauto|]. intros H. exists a. split; [reflexivity|].
      rewrite Hl. congruence.
  - split; [eauto|discriminate].
Qed.

Lemma installed_implies_provider_witness :
  exists a,
    fst (PhantomWallet.getPhantomProvider (browser_with_wallet RemoveAllMatching)) =
      Normal (Obj a) /\
    has_flag (heap (browser_with_wallet RemoveAllMatching)) (Obj a) = true.
Proof.
  destruct (installed_implies_provider (browser_with_wallet RemoveAllMatching)) as [_ H].
  apply H. reflexivity.
Defined.

(** X5.  [walletDebugger.getWalletProvider()] returns what the adapter's
    [_getProvider()] returns wherever [window] exists, and where it does not
    it returns [null] instead of throwing. *)
Theorem getWalletProvider_is_guarded_getProvider (w : World) :
  (window w <> None ->
   walletDebugger.getWalletProvider w = PhantomWalletAdapter._getProvider w) /\
  (window w = None ->
   walletDebugger.getWalletProvider w = (Normal Null, w) /\
   fst (PhantomWalletAdapter._getProvider w) =
     Throw (ReferenceError "window is not defined")).
Proof.
  destruct w as [[win|] h ad tr]; cbn; split; intros H.
  - reflexivity.
  - discriminate H.
  - exfalso. apply H. reflexivity.
  - split; reflexivity.
Qed.

Lemma getWalletProvider_is_guarded_getProvider_witness :
  walletDebugger.getWalletProvider (browser_with_wallet RemoveAllMatching) =
    (Normal (Obj 0), browser_with_wallet RemoveAllMatching) /\
  walletDebugger.getWalletProvider server_side = (Normal Null, server_side).
Proof.
  destruct (getWalletProvider_is_guarded_getProvider (browser_with_wallet RemoveAllMatching))
    as [H1 _].
  destruct (getWalletProvider_is_guarded_getProvider server_side) as [_ H2].
  split.
  - rewrite H1 by discriminate. reflexivity.
  - apply (H2 eq_refl).
Defined.

(** X6.  [walletDebugger.checkPhantomInstallation()] never throws; it prints
    its two console lines (none without a [window]) and does nothing else.
    It returns [false] without a [window] and [true] as soon as [window] has
    a [phantom] property, even one holding no provider; whenever
    [getWalletProvider()] finds an object, its result is truthy. *)
Theorem checkPhantomInstallation_covers_the_provider (w : World) :
  exists v,
    walletDebugger.checkPhantomInstallation w =
      (Normal v,
       Build_World (window w) (heap w) (this w)
         (trace w ++
          match window w with
          | Some _ => [ConsoleLog "Phantom provider available:";
                       ConsoleLog "Solana provider available:"]
          | None => []
          end)%list) /\
    (window w = None -> v = VBool false) /\
    (forall win, window w = Some win -> phantom win <> NoProperty -> v = VBool true) /\
    (forall a, fst (walletDebugger.getWalletProvider w) = Normal (Obj a) ->
               is_truthy v = true).
Proof.
  destruct w as [[[ph so ll]|] h ad tr].
  - assert (Hflag : exists flag,
               read_isPhantom so
                 (Build_World (Some (Build_Window ph so ll)) h ad tr) =
               (Normal flag, Build_World (Some (Build_Window ph so ll)) h ad tr) /\
               flag = has_flag h so).
    { destruct so as [| |b]; js_step; cbn; eauto. }
    destruct Hflag as (flag & Hread & Hflag).
    unfold walletDebugger.checkPhantomInstallation, walletDebugger.getWalletProvider,
      bind, read_window, PhantomWalletAdapter.console_log, effect, ret.
    cbn [window phantom solana heap this trace fst snd]. rewrite Hread. cbn.
    rewrite <- app_assoc.
    eexists. split; [reflexivity|].
    split; [discriminate|]. split.
    + intros win Hw Hp. inversion Hw; subst. cbn in Hp.
      destruct ph; try reflexivity. congruence.
    + intros a. destruct ph as [| |r]; cbn; try reflexivity.
      rewrite Hread. destruct flag; cbn; [|discriminate].
      intros H. inversion H as [Hso]. cbn. reflexivity.
  - exists (VBool false). cbn. rewrite app_nil_r.
    repeat split; try discriminate.
Qed.

Lemma checkPhantomInstallation_covers_the_provider_witness :
  fst (walletDebugger.checkPhantomInstallation (browser_with_wallet RemoveAllMatching)) =
    Normal (VBool true) /\
  fst (walletDebugger.checkPhantomInstallation server_side) = Normal (VBool false).
Proof.
  destruct (checkPhantomInstallation_covers_the_provider
              (browser_with_wallet RemoveAllMatching))
    as (v & Hrun & _ & Hphantom & _).
  destruct (checkPhantomInstallation_covers_the_provider server_side)
    as (v' & Hrun' & Hnone & _).
  rewrite Hrun, Hrun'. cbn.
  rewrite (Hphantom _ eq_refl) by discriminate. rewrite (Hnone eq_refl).
  split; reflexivity.
Defined.

(** ** The singleton *)

Lemma constructor_returns (w : World) (win : Window) :
  window w = Some win ->
  fst (PhantomWalletAdapter.constructor w) = Normal tt.
Proof.
  intros Hwin. destruct w as [win0 h ad tr]. cbn in Hwin. subst win0.
  unfold PhantomWalletAdapter.constructor, PhantomWalletAdapter._checkForPhantom,
    PhantomWalletAdapter._registerEvents.
  js_step. cbn.
  repeat (erewrite _getProvider_eq by reflexivity; cbn).
  repeat match goal with
         | |- context [match ?x with _ => _ end] => destruct x; cbn
         end; reflexivity.
Qed.

(** X7.  However often [getPhantomWallet()] is called in a browsing context, the
    adapter is constructed once: after the first call the module and the
    page are what one construction leaves, so the adapter's listeners are
    registered once and its cached state is not reset by later calls.
    Without a [window] every call throws and the variable stays [null]. *)
Theorem getPhantomWallet_constructs_once (s : Integration) (n : nat) :
  phantomWalletInstance s = false ->
  (window (page s) <> None ->
   getPhantomWallet_times (S n) s =
     {| page := perform New (page s); phantomWalletInstance := true |}) /\
  (window (page s) = None ->
   fst (getPhantomWallet s) = Throw (ReferenceError "window is not defined") /\
   phantomWalletInstance (getPhantomWallet_times n s) = false).
Proof.
  intros Hnull. split.
  - intros Hwin. destruct (window (page s)) as [win|] eqn:Hw; [|congruence].
    pose proof (constructor_returns (page s) win Hw) as Hret.
    assert (Hfirst : snd (getPhantomWallet s) =
                     {| page := perform New (page s); phantomWalletInstance := true |}).
    { unfold getPhantomWallet, perform. rewrite Hnull.
      destruct (PhantomWalletAdapter.constructor (page s)) as [[[]|e] w1];
        cbn in *; [reflexivity|discriminate]. }
    change (getPhantomWallet_times (S n) s)
      with (getPhantomWallet_times n (snd (getPhantomWallet s))).
    rewrite Hfirst. clear.
    induction n as [|n IH]; [reflexivity|]. exact IH.
  - intros Hwin.
    assert (Hstep : forall s0, phantomWalletInstance s0 = false -> window (page s0) = None ->
              fst (getPhantomWallet s0) = Throw (ReferenceError "window is not defined") /\
              phantomWalletInstance (snd (getPhantomWallet s0)) = false /\
              window (page (snd (getPhantomWallet s0))) = None).
    { intros [[win0 h ad tr] inst] Hi Hw0. cbn in Hi, Hw0. subst. repeat split. }
    split; [apply Hstep; assumption|].
    revert s Hnull Hwin. induction n as [|n IH]; intros s Hnull Hwin; [exact Hnull|].
    destruct (Hstep s Hnull Hwin) as (_ & Hi & Hw).
    apply (IH _ Hi Hw).
Qed.

Lemma getPhantomWallet_constructs_once_witness :
  Provider.listeners <$>
    heap (page (getPhantomWallet_times 3
                  {| page := browser_with_wallet RemoveAllMatching;
                     phantomWalletInstance := false |})) !! 0 =
    Some [("accountChanged", AccountChangedHandler); ("disconnect", DisconnectHandler)] /\
  phantomWalletInstance
    (getPhantomWallet_times 3 {| page := server_side; phantomWalletInstance := false |}) =
    false.
Proof.
  destruct (getPhantomWallet_constructs_once
              {| page := browser_with_wallet RemoveAllMatching;
                 phantomWalletInstance := false |} 2 eq_refl) as [H1 _].
  destruct (getPhantomWallet_constructs_once
              {| page := server_side; phantomWalletInstance := false |} 3 eq_refl)
    as [_ H2].
  split.
  - rewrite H1 by discriminate. reflexivity.
  - apply (H2 eq_refl).
Defined.

(** ** The token service's [addTokenToWallet] *)

(** X8.  Handed the adapter, [addTokenToWallet] in a browsing context throws
    "Wallet not connected" without any provider call while the adapter is
    not connected; once it is connected (provider at
    [window.phantom.solana]) it issues exactly one [wallet_watchAsset]
    request for the given mint, returns [true] when the provider resolves
    and rethrows the provider's rejection otherwise. *)
Theorem addTokenToWallet_through_the_adapter
    (w : World) (win : Window) (tokenMint : string) (u : Turn unit) :
  window w = Some win ->
  (_connected (this w) = false ->
   fst (addTokenToWallet tokenMint (fun m => PhantomWalletAdapter.addToken m u) w) =
     Throw (Error "Wallet not connected") /\
   calls (trace (snd (addTokenToWallet tokenMint
                        (fun m => PhantomWalletAdapter.addToken m u) w))) =
     calls (trace w)) /\
  (forall a,
     _connected (this w) = true ->
     phantom win = Namespace (Obj a) ->
     fst (addTokenToWallet tokenMint (fun m => PhantomWalletAdapter.addToken m u) w) =
       match settles u with Resolves _ => Normal true | Rejects e => Throw e end /\
     calls (trace (snd (addTokenToWallet tokenMint
                          (fun m => PhantomWalletAdapter.addToken m u) w))) =
       (calls (trace w) ++ [CallRequest a "wallet_watchAsset" "SPL" tokenMint])%list).
Proof.
  intros Hwin. split.
  - intros Hc.
    destruct w as [win0 h [key c f] tr]. cbn in Hwin, Hc. subst win0 c.
    unfold addTokenToWallet, PhantomWalletAdapter.addToken, PhantomWalletAdapter.connected.
    js_step. cbn.
    erewrite _getProvider_eq by reflexivity. cbn.
    match goal with
    | |- context [match ?r with Null => _ | Undefined => _ | Obj _ => _ end] => destruct r
    end; cbn; count_calls; split; reflexivity.
  - intros a Hc Hph.
    destruct w as [win0 h [key c f] tr]. cbn in Hwin, Hc. subst win0 c.
    destruct win as [ph so ll]. cbn in Hph. subst ph.
    unfold addTokenToWallet, PhantomWalletAdapter.addToken, PhantomWalletAdapter.connected,
      PhantomWalletAdapter._getProvider.
    js_step. cbn.
    destruct (settles u) as [[]|e]; cbn; count_calls; split; reflexivity.
Qed.

Lemma addTokenToWallet_through_the_adapter_witness :
  fst (addTokenToWallet "Mint111" (fun m => PhantomWalletAdapter.addToken m complies)
         (browser_with_wallet RemoveAllMatching)) = Throw (Error "Wallet not connected") /\
  fst (addTokenToWallet "Mint111" (fun m => PhantomWalletAdapter.addToken m complies)
         (perform (Connect (approves Addr123)) (browser_with_wallet RemoveAllMatching))) =
    Normal true.
Proof.
  split.
  - destruct (addTokenToWallet_through_the_adapter (browser_with_wallet RemoveAllMatching) _
                "Mint111" complies eq_refl) as [H _].
    apply (H eq_refl).
  - destruct (addTokenToWallet_through_the_adapter
                (perform (Connect (approves Addr123)) (browser_with_wallet RemoveAllMatching)) _
                "Mint111" complies eq_refl) as [_ H].
    apply (H 0 eq_refl eq_refl).
Defined.

(** ** The adapter's disconnect callback *)

(** X9.  The adapter keeps a single disconnect callback: after [onDisconnect(f)]
    and then [onDisconnect(g)], each run of the disconnect listener invokes
    [g] once, with no argument, and never [f]; it does so whether or not
    the adapter was connected, and the callback stays registered, so a
    second disconnect event invokes it again. *)
Theorem onDisconnect_keeps_the_last_callback (w : World) (f g : nat) :
  perform DisconnectEvent (perform (OnDisconnect g) (perform (OnDisconnect f) w)) =
    Build_World (window w) (heap w)
      {| _publicKey := None; _connected := false; _onDisconnect := Some g |}
      (trace w ++ [Invoke (UserFn g) None;
                   ConsoleLog "Disconnected from Phantom wallet"])%list /\
  trace (perform DisconnectEvent
           (perform DisconnectEvent
              (perform (OnDisconnect g) (perform (OnDisconnect f) w)))) =
    (trace w ++ [Invoke (UserFn g) None;
                 ConsoleLog "Disconnected from Phantom wallet";
                 Invoke (UserFn g) None;
                 ConsoleLog "Disconnected from Phantom wallet"])%list.
Proof.
  destruct w as [win h [key c od] tr].
  unfold perform, invoke, PhantomWalletAdapter.onDisconnect,
    PhantomWalletAdapter._handleDisconnect,
      PhantomWalletAdapter._handleDisconnect_when, PhantomWalletAdapter.call_onDisconnect.
  js_step. cbn. rewrite <- !app_assoc. split; reflexivity.
Qed.

(** ** The adapter's listeners at work *)

Lemma invoke_all_user_functions (cbs : list Callback) (arg : option PublicKey) (w : World) :
  only_user_functions cbs = true ->
  invoke_all cbs arg w =
  (Normal tt,
   Build_World (window w) (heap w) (this w)
     (trace w ++ List.map (fun cb => Invoke cb arg) cbs)%list).
Proof.
  unfold only_user_functions.
  revert w. induction cbs as [|cb cbs IH]; intros w Hcbs.
  - cbn. rewrite app_nil_r. destruct w; reflexivity.
  - cbn in Hcbs. apply andb_prop in Hcbs as [Hcb Hrest].
    destruct cb; try discriminate Hcb.
    cbn [invoke_all invoke]. unfold bind, effect. rewrite (IH _ Hrest). cbn.
    rewrite <- app_assoc. reflexivity.
Qed.

Lemma listeners_for_user_functions (event : string) (l : list (string * Callback)) :
  only_user_functions (List.map snd l) = true ->
  only_user_functions (listeners_for event l) = true.
Proof.
  unfold only_user_functions, listeners_for.
  induction l as [|r l IH]; cbn; [reflexivity|].
  intros H. apply andb_prop in H as [Hr Hl].
  destruct (String.eqb event (fst r)); cbn; [rewrite Hr|]; auto.
Qed.

Lemma listeners_for_account_change (l : list (string * Callback)) :
  listeners_for "accountChanged"
    ((l ++ [("accountChanged", AccountChangedHandler)]) ++ [("disconnect", DisconnectHandler)]) =
  (listeners_for "accountChanged" l ++ [AccountChangedHandler])%list.
Proof. rewrite !listeners_for_app, <- app_assoc. reflexivity. Qed.

(** X10.  With a provider at [window.phantom.solana] whose earlier listeners are
    callers' functions: once the adapter has connected, an [accountChanged]
    event carrying a key leaves the adapter connected with that key, and
    one carrying [null] leaves it disconnected with a null account. *)
Theorem adapter_follows_account_changes
    (w : World) (win : Window) (a : nat) (p : Provider.t)
    (turn : Turn ConnectResponse) (key key' : PublicKey) :
  window w = Some win ->
  phantom win = Namespace (Obj a) ->
  heap w !! a = Some p ->
  only_user_functions (List.map snd (Provider.listeners p)) = true ->
  settles turn = Resolves {| response_publicKey := key |} ->
  this (fire a ("accountChanged", Some key')
          (perform (Connect turn) (perform New w))) =
    {| _publicKey := Some key'; _connected := true; _onDisconnect := None |} /\
  this (fire a ("accountChanged", None)
          (perform (Connect turn) (perform New w))) = fresh_adapter.
Proof.
  intros Hwin Hph Hp Huser Hturn.
  destruct w as [win0 h ad tr]. cbn in Hwin, Hp. subst win0.
  destruct win as [ph so ll]. cbn in Hph. subst ph.
  unfold perform, PhantomWalletAdapter.constructor, PhantomWalletAdapter._checkForPhantom,
    PhantomWalletAdapter._registerEvents, PhantomWalletAdapter.connect,
    PhantomWalletAdapter._getProvider.
  js_step. cbn. rewrite Hturn. cbn.
  unfold fire, emit. js_step. cbn.
  rewrite !list_lookup_alter_eq, Hp. cbn.
  rewrite listeners_for_account_change.
  split; rewrite invoke_all_app;
    (rewrite invoke_all_user_functions
       by (apply listeners_for_user_functions; exact Huser));
    cbn; unfold PhantomWalletAdapter.accountChanged, PhantomWalletAdapter._handleDisconnect,
      PhantomWalletAdapter._handleDisconnect_when, PhantomWalletAdapter.call_onDisconnect;
    js_step; cbn; reflexivity.
Qed.

Lemma adapter_follows_account_changes_witness :
  this (fire 0 ("accountChanged", Some Addr456)
          (perform (Connect (approves Addr123))
             (perform New (browser_with_wallet RemoveAllMatching)))) =
    {| _publicKey := Some Addr456; _connected := true; _onDisconnect := None |}.
Proof.
  apply (adapter_follows_account_changes (browser_with_wallet RemoveAllMatching) _ 0 _
           (approves Addr123) Addr123 Addr456 eq_refl eq_refl eq_refl eq_refl eq_refl).
Defined.

(** X11.  With a provider at [window.phantom.solana] (and only callers' functions
    listening for [load] before): when the window fires [load] after the
    adapter was constructed, the adapter takes over the provider's state if
    the provider reports a connection (connected, with the provider's
    [publicKey], even a null one) and stays disconnected otherwise; the
    dispatch does not throw. *)
Theorem load_mirrors_the_provider
    (w : World) (win : Window) (a : nat) (p : Provider.t) :
  window w = Some win ->
  phantom win = Namespace (Obj a) ->
  heap w !! a = Some p ->
  only_user_functions (load_listeners win) = true ->
  fst (fire_load (perform New w)) = Normal tt /\
  this (snd (fire_load (perform New w))) =
    if Provider.isConnected p
    then {| _publicKey := Provider.publicKey p; _connected := true; _onDisconnect := None |}
    else fresh_adapter.
Proof.
  intros Hwin Hph Hp Huser.
  destruct w as [win0 h ad tr]. cbn in Hwin, Hp. subst win0.
  destruct win as [ph so ll]. cbn in Hph, Huser. subst ph.
  unfold perform, PhantomWalletAdapter.constructor, PhantomWalletAdapter._checkForPhantom,
    PhantomWalletAdapter._registerEvents, PhantomWalletAdapter._getProvider.
  js_step. cbn.
  unfold fire_load. js_step. cbn.
  rewrite invoke_all_app, (invoke_all_user_functions ll None _ Huser). cbn.
  unfold PhantomWalletAdapter._checkConnection, PhantomWalletAdapter._getProvider.
  js_step. cbn.
  rewrite !list_lookup_alter_eq, Hp. cbn.
  destruct (Provider.isConnected p); cbn;
    rewrite ?list_lookup_alter_eq, ?Hp; cbn; split; reflexivity.
Qed.

Lemma load_mirrors_the_provider_witness :
  this (snd (fire_load
               (perform New
                  {| window := Some {| phantom := Namespace (Obj 0); solana := Obj 0;
                                       load_listeners := [] |};
                     heap := [wallet true true (Some Addr123) RemoveAllMatching];
                     this := fresh_adapter;
                     trace := [] |}))) =
    {| _publicKey := Some Addr123; _connected := true; _onDisconnect := None |}.
Proof.
  destruct (load_mirrors_the_provider
              {| window := Some {| phantom := Namespace (Obj 0); solana := Obj 0;
                                   load_listeners := [] |};
                 heap := [wallet true true (Some Addr123) RemoveAllMatching];
                 this := fresh_adapter;
                 trace := [] |} _ 0 _ eq_refl eq_refl eq_refl eq_refl) as [_ H].
  exact H.
Defined.

(** ** The event relay at work *)

Lemma setup_provider (c : PhantomWallet.Callbacks) (w : World) (win : Window) (a : nat)
    (p : Provider.t) :
  window w = Some win ->
  phantom win = Namespace (Obj a) ->
  heap w !! a = Some p ->
  window (snd (PhantomWallet.setupPhantomEventListeners c w)) = window w /\
  heap (snd (PhantomWallet.setupPhantomEventListeners c w)) !! a =
    Some (Provider.with_listeners (Provider.listeners p ++ registrations c) p).
Proof.
  intros Hwin Hph Hp.
  destruct (setup_effect c w win a Hwin Hph) as (new & -> & _). cbn.
  split; [reflexivity|].
  rewrite list_lookup_alter_eq, Hp. cbn. rewrite subscribed_listeners. reflexivity.
Qed.

Lemma emit_reaches_the_last (a : nat) (event : string) (arg : option PublicKey)
    (w : World) (win : Window) (p : Provider.t) (before : list Callback) (f : nat) :
  window w = Some win ->
  heap w !! a = Some p ->
  listeners_for event (Provider.listeners p) = (before ++ [UserFn f])%list ->
  exists earlier,
    trace (fire a (event, arg) w) = (trace w ++ earlier ++ [Invoke (UserFn f) arg])%list.
Proof.
  intros Hwin Hp Hl.
  unfold fire, emit, read_provider, bind. cbn [fst snd]. rewrite Hp, Hl, invoke_all_app.
  destruct (invoke_all_returns before arg w win Hwin) as (w1 & Hrun & _ & _).
  destruct (invoke_all_silent [] before arg w) as (_ & _ & earlier & Ht & _).
  { clear. induction before; [reflexivity|exact IHbefore]. }
  { unfold unknown_to_adapter. destruct (_onDisconnect (this w)); reflexivity. }
  rewrite Hrun in Ht |- *. cbn in Ht |- *.
  exists earlier. rewrite Ht, app_assoc. reflexivity.
Qed.

(** X12.  After [setupPhantomEventListeners], with a provider at
    [window.phantom.solana]: when the provider emits [connect],
    [disconnect] or [accountChanged], the caller's function subscribed for
    that event is invoked with the event's argument, after the listeners
    that were registered earlier. *)
Theorem relay_delivers_events
    (c : PhantomWallet.Callbacks) (w : World) (win : Window) (a : nat) (p : Provider.t)
    (arg : option PublicKey) :
  window w = Some win ->
  phantom win = Namespace (Obj a) ->
  heap w !! a = Some p ->
  (forall f, PhantomWallet.onConnect c = Some (UserFn f) ->
     exists earlier,
       trace (fire a ("connect", arg) (snd (PhantomWallet.setupPhantomEventListeners c w))) =
       (trace (snd (PhantomWallet.setupPhantomEventListeners c w)) ++
        earlier ++ [Invoke (UserFn f) arg])%list) /\
  (forall f, PhantomWallet.onDisconnect c = Some (UserFn f) ->
     exists earlier,
       trace (fire a ("disconnect", arg) (snd (PhantomWallet.setupPhantomEventListeners c w))) =
       (trace (snd (PhantomWallet.setupPhantomEventListeners c w)) ++
        earlier ++ [Invoke (UserFn f) arg])%list) /\
  (forall f, PhantomWallet.onAccountChange c = Some (UserFn f) ->
     exists earlier,
       trace (fire a ("accountChanged", arg)
                (snd (PhantomWallet.setupPhantomEventListeners c w))) =
       (trace (snd (PhantomWallet.setupPhantomEventListeners c w)) ++
        earlier ++ [Invoke (UserFn f) arg])%list).
Proof.
  intros Hwin Hph Hp.
  destruct (setup_provider c w win a p Hwin Hph Hp) as [Hw1 Hp1].
  rewrite <- Hw1 in Hwin.
  repeat split; intros f Hf;
    (eapply (emit_reaches_the_last a _ arg _ win _ _ f Hwin Hp1));
    cbn [Provider.listeners Provider.with_listeners];
    rewrite listeners_for_app; f_equal;
    destruct c as [o1 o2 o3]; cbn in Hf; subst;
    unfold registrations; cbn;
    repeat match goal with
           | |- context [match ?o with Some _ => _ | None => _ end] => destruct o
           end; reflexivity.
Qed.

Lemma relay_delivers_events_witness :
  exists earlier,
    trace (fire 0 ("connect", Some Addr123)
             (snd (PhantomWallet.setupPhantomEventListeners
                     {| PhantomWallet.onConnect := Some (UserFn 1);
                        PhantomWallet.onDisconnect := None;
                        PhantomWallet.onAccountChange := None |}
                     (browser_with_wallet RemoveAllMatching)))) =
    (trace (snd (PhantomWallet.setupPhantomEventListeners
                   {| PhantomWallet.onConnect := Some (UserFn 1);
                      PhantomWallet.onDisconnect := None;
                      PhantomWallet.onAccountChange := None |}
                   (browser_with_wallet RemoveAllMatching))) ++
     earlier ++ [Invoke (UserFn 1) (Some Addr123)])%list.
Proof.
  destruct (relay_delivers_events
              {| PhantomWallet.onConnect := Some (UserFn 1);
                 PhantomWallet.onDisconnect := None;
                 PhantomWallet.onAccountChange := None |}
              (browser_with_wallet RemoveAllMatching) _ 0 _ (Some Addr123)
              eq_refl eq_refl eq_refl) as (H & _).
  apply (H 1 eq_refl).
Defined.

Lemma existsb_skip (event event' : string) (cb cb' : Callback)
    (l : list (string * Callback)) :
  String.eqb event event' = false ->
  existsb (registered event cb) ((event', cb') :: l) = existsb (registered event cb) l.
Proof. intros H. cbn. unfold registered at 1. cbn. rewrite H. reflexivity. Qed.

Ltac unknown_tail HL HR :=
  rewrite ?existsb_skip by reflexivity;
  first [ eapply unknown_no_match; [|first [exact HL | exact HR]];
          first [ apply mentions_onConnect; reflexivity
                | apply mentions_onDisconnect; reflexivity
                | apply mentions_onAccountChange; reflexivity ]
        | reflexivity ].

Lemma removals_leave_the_rest (policy : Removal) (c : PhantomWallet.Callbacks)
    (L R : list (string * Callback)) :
  forallb (fun r => negb (mentions (functions c) (snd r))) L = true ->
  forallb (fun r => negb (mentions (functions c) (snd r))) R = true ->
  after_removals policy c ((L ++ registrations c) ++ R) = (L ++ R)%list.
Proof.
  intros HL HR.
  destruct c as [[c1|] [c2|] [c3|]]; unfold after_removals, registrations; cbn;
    rewrite <- ?app_assoc; cbn [app];
    repeat (rewrite remove_appended; [ cbn [app] | unknown_tail HL HR .. ]);
    reflexivity.
Qed.

Lemma registrations_functions (fs : list Callback) (c : PhantomWallet.Callbacks) :
  forallb (fun f => negb (mentions fs f)) (functions c) = true ->
  forallb (fun r => negb (mentions fs (snd r))) (registrations c) = true.
Proof.
  destruct c as [[c1|] [c2|] [c3|]]; unfold functions, registrations; cbn; auto.
Qed.

(** X13.  Two subscriptions on the same provider do not interfere: when the
    functions of the first are not registered otherwise and are not among
    those of the second, tearing the first down leaves the provider exactly
    as if only the second subscription had been made. *)
Theorem teardown_spares_other_subscriptions
    (c1 c2 : PhantomWallet.Callbacks) (w : World) (win : Window) (a : nat) (p : Provider.t) :
  window w = Some win ->
  phantom win = Namespace (Obj a) ->
  heap w !! a = Some p ->
  unknown_to (functions c1) p = true ->
  forallb (fun f => negb (mentions (functions c1) f)) (functions c2) = true ->
  heap (snd (PhantomWallet.teardown (PhantomWallet.RemoveListeners a c1)
               (snd (PhantomWallet.setupPhantomEventListeners c2
                       (snd (PhantomWallet.setupPhantomEventListeners c1 w)))))) =
  heap (snd (PhantomWallet.setupPhantomEventListeners c2 w)).
Proof.
  intros Hwin Hph Hp Hnew Hother.
  destruct (setup_effect c1 w win a Hwin Hph) as (new1 & -> & _). cbn [snd].
  destruct (setup_effect c2 w win a Hwin Hph) as (new2 & -> & _). cbn [snd heap].
  match goal with
  | |- context [PhantomWallet.setupPhantomEventListeners c2 ?x] =>
      destruct (setup_effect c2 x win a Hwin Hph) as (new3 & -> & _)
  end.
  cbn [snd]. rewrite teardown_effect. cbn [snd heap].
  rewrite !list_alter_alter_eq.
  apply list_alter_ext; [|reflexivity].
  intros q Hq. rewrite Hq in Hp. injection Hp as ->. cbn.
  rewrite unsubscribed_listeners, !subscribed_listeners.
  destruct p as [flag ic key L policy]. unfold unknown_to in Hnew. cbn in *.
  unfold Provider.with_listeners. cbn. f_equal.
  apply removals_leave_the_rest; [exact Hnew|].
  apply registrations_functions, Hother.
Qed.

Lemma teardown_spares_other_subscriptions_witness :
  Provider.listeners <$>
    heap (snd (PhantomWallet.teardown
                 (PhantomWallet.RemoveListeners 0
                    {| PhantomWallet.onConnect := Some (UserFn 1);
                       PhantomWallet.onDisconnect := Some (UserFn 2);
                       PhantomWallet.onAccountChange := None |})
                 (snd (PhantomWallet.setupPhantomEventListeners
                         {| PhantomWallet.onConnect := Some (UserFn 3);
                            PhantomWallet.onDisconnect := None;
                            PhantomWallet.onAccountChange := Some (UserFn 4) |}
                         (snd (PhantomWallet.setupPhantomEventListeners
                                 {| PhantomWallet.onConnect := Some (UserFn 1);
                                    PhantomWallet.onDisconnect := Some (UserFn 2);
                                    PhantomWallet.onAccountChange := None |}
                                 (browser_with_wallet RemoveLastMatching))))))) !! 0 =
  Some [("connect", UserFn 3); ("accountChanged", UserFn 4)].
Proof.
  rewrite (teardown_spares_other_subscriptions
             {| PhantomWallet.onConnect := Some (UserFn 1);
                PhantomWallet.onDisconnect := Some (UserFn 2);
                PhantomWallet.onAccountChange := None |}
             {| PhantomWallet.onConnect := Some (UserFn 3);
                PhantomWallet.onDisconnect := None;
                PhantomWallet.onAccountChange := Some (UserFn 4) |}
             (browser_with_wallet RemoveLastMatching) _ 0 _
             eq_refl eq_refl eq_refl eq_refl eq_refl).
  reflexivity.
Defined.

(** * The test script *)

Section Run.
Variable a : nat.

Lemma run_conseq {A} (m : M A) (p : Provider.t) (r : Completion A)
    (p1 p2 : Provider.t) (cs ds : list Effect) :
  run a m p r p1 cs -> p1 = p2 -> cs = ds -> run a m p r p2 ds.
Proof. intros H <- <-. exact H. Qed.

Lemma run_ret {A} (v : A) (p : Provider.t) : run a (ret v) p (Normal v) p [].
Proof.
  intros [win h ad tr] [Hwin Hp]. cbn in *. exists []. split; [|reflexivity].
  unfold ret. rewrite app_nil_r, list_insert_id by exact Hp. reflexivity.
Qed.

Lemma run_throw {A} (e : Thrown) (p : Provider.t) : run a (@throw A e) p (Throw e) p [].
Proof.
  intros [win h ad tr] [Hwin Hp]. cbn in *. exists []. split; [|reflexivity].
  unfold throw. rewrite app_nil_r, list_insert_id by exact Hp. reflexivity.
Qed.

Lemma observed_app (l1 l2 : list Effect) :
  observed (l1 ++ l2) = (observed l1 ++ observed l2)%list.
Proof. apply List.filter_app. Qed.

Lemma run_effect (e : Effect) (p : Provider.t) :
  run a (effect e) p (Normal tt) p (observed [e]).
Proof.
  intros [win h ad tr] [Hwin Hp]. cbn in *. exists [e]. split; [|reflexivity].
  unfold effect. cbn. rewrite list_insert_id by exact Hp. reflexivity.
Qed.

Lemma provider_at_next (p p' : Provider.t) (w : World) (new : list Effect) :
  provider_at a p w ->
  provider_at a p'
    (Build_World (window w) (<[a := p']> (heap w)) (this w) (trace w ++ new)).
Proof.
  intros [Hwin Hp]. split; [exact Hwin|]. cbn.
  apply list_lookup_insert_eq. apply lookup_lt_is_Some_1. eauto.
Qed.

Lemma run_bind {A B} (m : M A) (k : A -> M B) (p p1 p2 : Provider.t)
    (v : A) (r : Completion B) (cs ds : list Effect) :
  run a m p (Normal v) p1 cs ->
  run a (k v) p1 r p2 ds ->
  run a (bind m k) p r p2 (cs ++ ds).
Proof.
  intros Hm Hk w Hw.
  destruct (Hm w Hw) as (new1 & E1 & C1).
  destruct (Hk _ (provider_at_next p p1 w new1 Hw)) as (new2 & E2 & C2).
  exists (new1 ++ new2)%list. unfold bind. rewrite E1, E2. cbn.
  rewrite list_insert_insert_eq, app_assoc, observed_app, C1, C2. auto.
Qed.

Lemma run_bind_throw {A B} (m : M A) (k : A -> M B) (p p1 : Provider.t)
    (e : Thrown) (cs : list Effect) :
  run a m p (Throw e) p1 cs ->
  run a (bind m k) p (Throw e) p1 cs.
Proof.
  intros Hm w Hw.
  destruct (Hm w Hw) as (new1 & E1 & C1).
  exists new1. unfold bind. rewrite E1. auto.
Qed.

Lemma run_try {A} (m : M A) (handler : Thrown -> M A) (p p1 : Provider.t)
    (v : A) (cs : list Effect) :
  run a m p (Normal v) p1 cs ->
  run a (try_catch m handler) p (Normal v) p1 cs.
Proof.
  intros Hm w Hw.
  destruct (Hm w Hw) as (new1 & E1 & C1).
  exists new1. unfold try_catch. rewrite E1. auto.
Qed.

Lemma run_catch {A} (m : M A) (handler : Thrown -> M A) (p p1 p2 : Provider.t)
    (e : Thrown) (r : Completion A) (cs ds : list Effect) :
  run a m p (Throw e) p1 cs ->
  run a (handler e) p1 r p2 ds ->
  run a (try_catch m handler) p r p2 (cs ++ ds).
Proof.
  intros Hm Hk w Hw.
  destruct (Hm w Hw) as (new1 & E1 & C1).
  destruct (Hk _ (provider_at_next p p1 w new1 Hw)) as (new2 & E2 & C2).
  exists (new1 ++ new2)%list. unfold try_catch. rewrite E1, E2. cbn.
  rewrite list_insert_insert_eq, app_assoc, observed_app, C1, C2. auto.
Qed.

Lemma run_if {A} (b : bool) (m1 m2 : M A) (p p1 p2 : Provider.t)
    (r : Completion A) (cs ds : list Effect) :
  run a m1 p r p1 cs ->
  run a m2 p r p2 ds ->
  run a (if b then m1 else m2) p r (if b then p1 else p2) (if b then cs else ds).
Proof. destruct b; auto. Qed.

Lemma alter_insert (f : Provider.t -> Provider.t) (h : list Provider.t) (p : Provider.t) :
  h !! a = Some p -> alter f a h = <[a := f p]> h.
Proof.
  intros Hp. apply list_eq. intros i.
  destruct (decide (i = a)) as [->|Hne].
  - rewrite list_lookup_alter_eq, Hp, list_lookup_insert_eq; [reflexivity|].
    apply lookup_lt_is_Some_1. eauto.
  - rewrite list_lookup_alter_ne, list_lookup_insert_ne by congruence. reflexivity.
Qed.

Ltac enter_world :=
  let Hwin := fresh "Hwin" in
  let Hp := fresh "Hp" in
  intros [[[ph so ll]|] h ad tr] [Hwin Hp]; cbn in Hwin, Hp; [|discriminate Hwin];
  injection Hwin as ->.

Ltac leave_world Hp :=
  eexists; split;
  [ cbn; rewrite ?Hp; cbn; rewrite ?list_insert_id by exact Hp; reflexivity
  | reflexivity ].

Lemma run_log (line : string) (p : Provider.t) :
  run a (effect (ConsoleLog line)) p (Normal tt) p [].
Proof. apply (run_effect (ConsoleLog line)). Qed.

Lemma run_error (line : string) (p : Provider.t) :
  run a (effect (ConsoleError line)) p (Normal tt) p [ConsoleError line].
Proof. apply (run_effect (ConsoleError line)). Qed.

Lemma run_debugLog (message : string) (p : Provider.t) :
  run a (PhantomWallet.debugLog message) p (Normal tt) p [].
Proof. apply run_log. Qed.

Lemma run_getPhantomProvider (p : Provider.t) :
  run a PhantomWallet.getPhantomProvider p (Normal (Obj a)) p [].
Proof.
  enter_world. unfold PhantomWallet.getPhantomProvider. js_step.
  leave_world Hp.
Qed.

Lemma run_isPhantomInstalled (p : Provider.t) :
  run a PhantomWallet.isPhantomInstalled p (Normal (Provider.isPhantom p)) p [].
Proof.
  enter_world. unfold PhantomWallet.isPhantomInstalled. js_step.
  leave_world Hp.
Qed.

Lemma run_read_isConnected (p : Provider.t) :
  run a (read_isConnected (Obj a)) p (Normal (Provider.isConnected p)) p [].
Proof. enter_world. js_step. exists []. cbn. rewrite Hp, app_nil_r, list_insert_id by exact Hp. auto. Qed.

Lemma run_read_publicKey (p : Provider.t) :
  run a (read_publicKey (Obj a)) p (Normal (Provider.publicKey p)) p [].
Proof. enter_world. js_step. exists []. cbn. rewrite Hp, app_nil_r, list_insert_id by exact Hp. auto. Qed.

Lemma run_update_provider (f : Provider.t -> Provider.t) (p : Provider.t) :
  run a (update_provider a f) p (Normal tt) (f p) [].
Proof.
  enter_world. js_step. exists []. cbn.
  rewrite app_nil_r, (alter_insert f h p Hp). auto.
Qed.

Lemma run_await_resolves {A} (call : Effect) (turn : Turn A) (v : A) (p : Provider.t) :
  settles turn = Resolves v ->
  run a (await call a turn) p (Normal v) (after turn p) (observed [call]).
Proof.
  intros Hs. enter_world. unfold await. js_step. rewrite Hs. exists [call]. cbn.
  rewrite (alter_insert _ h p Hp). auto.
Qed.

Lemma run_await_rejects {A} (call : Effect) (turn : Turn A) (e : Thrown) (p : Provider.t) :
  settles turn = Rejects e ->
  run a (@await A call a turn) p (Throw e) (after turn p) (observed [call]).
Proof.
  intros Hs. enter_world. unfold await. js_step. rewrite Hs. exists [call]. cbn.
  rewrite (alter_insert _ h p Hp). auto.
Qed.

Ltac run_go :=
  cbn beta iota zeta delta [truthy negb];
  lazymatch goal with
  | |- run _ (ret _) _ _ _ _ => eapply run_ret
  | |- run _ (throw _) _ _ _ _ => eapply run_throw
  | |- run _ (effect (ConsoleLog _)) _ _ _ _ => eapply run_log
  | |- run _ (effect (ConsoleError _)) _ _ _ _ => eapply run_error
  | |- run _ (phantomWalletTest.console_log _) _ _ _ _ => eapply run_log
  | |- run _ (phantomWalletTest.console_error _) _ _ _ _ => eapply run_error
  | |- run _ (PhantomWallet.debugLog _) _ _ _ _ => eapply run_debugLog
  | |- run _ PhantomWallet.getPhantomProvider _ _ _ _ => eapply run_getPhantomProvider
  | |- run _ PhantomWallet.isPhantomInstalled _ _ _ _ => eapply run_isPhantomInstalled
  | |- run _ (read_isConnected _) _ _ _ _ => eapply run_read_isConnected
  | |- run _ (read_publicKey _) _ _ _ _ => eapply run_read_publicKey
  | |- run _ (update_provider _ _) _ _ _ _ => eapply run_update_provider
  | |- run _ (await _ _ _) _ _ _ _ =>
      first [ eapply run_await_resolves; eassumption
            | eapply run_await_rejects; eassumption ]
  | |- run _ (bind _ _) _ _ _ _ =>
      first [ eapply run_bind; [ run_go | run_go ]
            | eapply run_bind_throw; run_go ]
  | |- run _ (try_catch _ _) _ _ _ _ =>
      first [ eapply run_try; run_go
            | eapply run_catch; [ run_go | run_go ] ]
  | |- run _ (if _ then _ else _) _ _ _ _ => eapply run_if; [ run_go | run_go ]
  | _ => eassumption
  end.

Ltac same_branches :=
  repeat match goal with
         | |- context [if ?b then _ else _] => destruct b
         end;
  reflexivity.

Ltac run_by := eapply run_conseq; [ run_go | same_branches | same_branches ].

Lemma run_isPhantomConnected (p : Provider.t) :
  run a PhantomWallet.isPhantomConnected p (Normal (Provider.isConnected p)) p [].
Proof. unfold PhantomWallet.isPhantomConnected. run_by. Qed.

Lemma run_getConnectedPublicKey (p : Provider.t) :
  run a PhantomWallet.getConnectedPublicKey p
    (Normal match Provider.publicKey p with
            | Some pk => if String.eqb (toString pk) "" then None else Some (toString pk)
            | None => None
            end) p [].
Proof. unfold PhantomWallet.getConnectedPublicKey. run_by. Qed.

Lemma run_setup (c : PhantomWallet.Callbacks) (p : Provider.t) :
  run a (PhantomWallet.setupPhantomEventListeners c) p
    (Normal (PhantomWallet.RemoveListeners a c)) (subscribed c p) [].
Proof.
  unfold PhantomWallet.setupPhantomEventListeners.
  destruct c as [[c1|] [c2|] [c3|]]; cbn [PhantomWallet.onConnect
    PhantomWallet.onDisconnect PhantomWallet.onAccountChange]; run_by.
Qed.

Lemma run_teardown (c : PhantomWallet.Callbacks) (p : Provider.t) :
  run a (PhantomWallet.teardown (PhantomWallet.RemoveListeners a c)) p
    (Normal tt) (unsubscribed c p) [].
Proof.
  unfold PhantomWallet.teardown.
  destruct c as [[c1|] [c2|] [c3|]]; cbn [PhantomWallet.onConnect
    PhantomWallet.onDisconnect PhantomWallet.onAccountChange]; run_by.
Qed.

Lemma run_connect_resolves (turn : Turn ConnectResponse) (v : ConnectResponse)
    (p : Provider.t) :
  settles turn = Resolves v ->
  run a (PhantomWallet.connectPhantomWallet turn) p
    (Normal (toString (response_publicKey v))) (after turn p) [CallConnect a].
Proof. intros Hs. unfold PhantomWallet.connectPhantomWallet. run_by. Qed.

Lemma run_connect_rejects (turn : Turn ConnectResponse) (e : Thrown) (p : Provider.t) :
  settles turn = Rejects e ->
  run a (PhantomWallet.connectPhantomWallet turn) p (Throw e) (after turn p)
    [CallConnect a].
Proof. intros Hs. unfold PhantomWallet.connectPhantomWallet. run_by. Qed.

(** Tests 5 and 10. *)
Lemma run_connection_test (line : string) (turn : Turn ConnectResponse) (p : Provider.t) :
  run a
    (try_catch
       (phantomWalletTest.console_log line ;;
        pubKey <- PhantomWallet.connectPhantomWallet turn ;;
        phantomWalletTest.console_log "   Connection successful! ✓" ;;
        phantomWalletTest.console_log ("   Connected to: " ++ pubKey))
       phantomWalletTest.report_connection_error)
    p (Normal tt) (after turn p)
    (CallConnect a ::
     reported turn [ConsoleError "   Unexpected error during connection"]).
Proof.
  unfold reported. destruct (settles turn) as [v|e] eqn:Hs.
  - pose proof (run_connect_resolves turn v p Hs). run_by.
  - pose proof (run_connect_rejects turn e p Hs).
    unfold phantomWalletTest.report_connection_error. run_by.
Qed.

(** Test 7. *)
Lemma run_token_test (tokenAddress : string) (turn : Turn unit) (p : Provider.t) :
  run a
    (try_catch
       (phantomWalletTest.console_log ("   Attempting to add token: " ++ tokenAddress) ;;
        PhantomWallet.addTokenToPhantomWallet tokenAddress turn ;;
        phantomWalletTest.console_log "   Token add request successful! ✓")
       (fun error =>
          phantomWalletTest.console_error ("   ERROR: " ++ message_of error) ;;
          if code_is_4001 error then
            phantomWalletTest.console_log
              ("   User rejected the token add request (this is expected if you clicked "
               ++ phantomWalletTest.dq ++ "Cancel" ++ phantomWalletTest.dq ++ ")")
          else phantomWalletTest.console_error "   Unexpected error during token add"))
    p (Normal tt) (after turn p)
    (CallRequest a "wallet_watchAsset" "SPL" tokenAddress ::
     reported turn [ConsoleError "   Unexpected error during token add"]).
Proof.
  unfold PhantomWallet.addTokenToPhantomWallet, reported.
  destruct (settles turn) as [v|e] eqn:Hs; run_by.
Qed.

(** Test 8. *)
Lemma run_disconnect_test (turn : Turn unit) (p : Provider.t) :
  run a
    (try_catch
       (phantomWalletTest.console_log "   Attempting to disconnect from wallet..." ;;
        PhantomWallet.disconnectPhantomWallet turn ;;
        phantomWalletTest.console_log "   Disconnection successful! ✓")
       (fun error => phantomWalletTest.console_error ("   ERROR: " ++ message_of error)))
    p (Normal tt) (after turn p) (CallDisconnect a :: reported turn []).
Proof.
  unfold PhantomWallet.disconnectPhantomWallet, reported.
  destruct (settles turn) as [v|e] eqn:Hs; run_by.
Qed.

Ltac run_script :=
  cbn beta iota zeta delta [truthy negb];
  lazymatch goal with
  | |- run _ (try_catch (bind _ (fun _ => bind (PhantomWallet.connectPhantomWallet _) _)) _)
         _ _ _ _ => eapply run_connection_test
  | |- run _ (try_catch (bind _ (fun _ => bind (PhantomWallet.addTokenToPhantomWallet _ _) _)) _)
         _ _ _ _ => eapply run_token_test
  | |- run _ (try_catch (bind _ (fun _ => bind (PhantomWallet.disconnectPhantomWallet _) _)) _)
         _ _ _ _ => eapply run_disconnect_test
  | |- run _ PhantomWallet.isPhantomConnected _ _ _ _ => eapply run_isPhantomConnected
  | |- run _ PhantomWallet.getConnectedPublicKey _ _ _ _ => eapply run_getConnectedPublicKey
  | |- run _ (PhantomWallet.setupPhantomEventListeners _) _ _ _ _ => eapply run_setup
  | |- run _ (PhantomWallet.teardown _) _ _ _ _ => eapply run_teardown
  | |- run _ (bind _ _) _ _ _ _ => eapply run_bind; [ run_script | run_script ]
  | |- run _ (if _ then _ else _) _ _ _ _ => eapply run_if; [ run_script | run_script ]
  | _ => run_go
  end.

(** The whole script where the wallet is installed. *)
Lemma run_runTests (c1 c2 c3 : nat)
    (first : Turn ConnectResponse) (watch bye : Turn unit) (again : Turn ConnectResponse)
    (p : Provider.t) :
  Provider.isPhantom p = true ->
  let cbs := phantomWalletTest.callbacks c1 c2 c3 in
  let p1 := after first (subscribed cbs p) in
  let p2 := if Provider.isConnected p1 then after bye (after watch p1) else p1 in
  run a (phantomWalletTest.runTests c1 c2 c3 first watch bye again) p (Normal tt)
    (unsubscribed cbs (after again p2))
    (CallConnect a ::
     reported first [ConsoleError "   Unexpected error during connection"] ++
     (if Provider.isConnected p1
      then CallRequest a "wallet_watchAsset" "SPL"
             "EPjFWdd5AufqSSqeM2qN1xzybapC8G4wEGGkZwyTDt1v" ::
           reported watch [ConsoleError "   Unexpected error during token add"] ++
           CallDisconnect a :: reported bye []
      else []) ++
     CallConnect a ::
     reported again [ConsoleError "   Unexpected error during connection"]).
Proof.
  intros Hflag cbs p1 p2.
  unfold phantomWalletTest.runTests. fold cbs.
  eapply run_conseq; [ run_script | | ].
  all: rewrite Hflag; cbn [negb]; subst p2 p1;
    destruct (Provider.isConnected p);
    destruct (Provider.isConnected (after first (subscribed cbs p)));
    cbn [app]; rewrite <- ?app_assoc, ?app_nil_r; cbn [app];
    rewrite <- ?app_assoc; reflexivity.
Qed.

End Run.

Lemma calls_observed (l : list Effect) : calls (observed l) = calls l.
Proof.
  unfold calls, observed. induction l as [|e l IH]; [reflexivity|].
  destruct e; cbn; rewrite ?IH; reflexivity.
Qed.

Lemma errors_observed (l : list Effect) : errors (observed l) = errors l.
Proof.
  unfold errors, observed. induction l as [|e l IH]; [reflexivity|].
  destruct e; cbn; rewrite ?IH; reflexivity.
Qed.

Lemma errors_app (l1 l2 : list Effect) : errors (l1 ++ l2) = (errors l1 ++ errors l2)%list.
Proof. apply List.filter_app. Qed.

Ltac settle_all :=
  unfold reported;
  repeat match goal with
         | |- context [match settles ?t with _ => _ end] => destruct (settles t)
         end;
  repeat match goal with
         | |- context [if ?b then _ else _] => destruct b
         end;
  reflexivity.

Lemma bind_eq {A B} (m : M A) (k : A -> M B) (w w' : World) (v : A) :
  m w = (Normal v, w') -> bind m k w = k v w'.
Proof. intros H. unfold bind. rewrite H. reflexivity. Qed.

Lemma isPhantomInstalled_cases (w : World) :
  (forall tr, exists dbg,
     PhantomWallet.isPhantomInstalled (Build_World (window w) (heap w) (this w) tr) =
     (Normal false, Build_World (window w) (heap w) (this w) (tr ++ dbg)%list) /\
     calls dbg = []) \/
  (exists a p, provider_at a p w /\ Provider.isPhantom p = true).
Proof.
  destruct w as [[[ph so ll]|] h ad tr0]; unfold PhantomWallet.isPhantomInstalled.
  - destruct ph as [| |[| |a]]; js_step; cbn;
      try (left; intros tr; eexists; split; reflexivity).
    destruct (h !! a) as [p|] eqn:Hp; [destruct (Provider.isPhantom p) eqn:Hflag|];
      try (left; intros tr; eexists; split; reflexivity).
    right. exists a, p. repeat split; assumption.
  - left. intros tr. exists []. js_step. rewrite app_nil_r. split; reflexivity.
Qed.

Lemma runTests_aborts (c1 c2 c3 : nat)
    (first : Turn ConnectResponse) (watch bye : Turn unit) (again : Turn ConnectResponse)
    (w : World) :
  fst (PhantomWallet.isPhantomInstalled w) = Normal false ->
  exists new,
    phantomWalletTest.runTests c1 c2 c3 first watch bye again w =
    (Normal tt,
     Build_World (window w) (heap w) (this w)
       (trace w ++ new ++
        [ConsoleLog (phantomWalletTest.nl ++ "=== TESTS ABORTED ===")])%list) /\
    calls new = [].
Proof.
  intros Hno.
  destruct (isPhantomInstalled_cases w) as [Hcase | (a & p & Hw & Hflag)].
  - unfold phantomWalletTest.runTests.
    erewrite bind_eq by reflexivity.
    erewrite bind_eq by reflexivity.
    cbn [window heap this trace].
    destruct (Hcase ((trace w ++ [ConsoleLog "=== PHANTOM WALLET INTEGRATION TESTS ==="]) ++
                     [ConsoleLog (phantomWalletTest.nl ++
                                  "1. Testing Phantom installation detection:")])%list)
      as (dbg & E & Hdbg).
    erewrite bind_eq by exact E.
    cbn beta iota delta [negb].
    erewrite bind_eq by reflexivity.
    erewrite bind_eq by reflexivity.
    unfold phantomWalletTest.console_log, effect. cbn [window heap this trace].
    exists ([ConsoleLog "=== PHANTOM WALLET INTEGRATION TESTS ===";
             ConsoleLog (phantomWalletTest.nl ++
                         "1. Testing Phantom installation detection:")] ++ dbg ++
            [ConsoleLog ("   Phantom installed: " ++ "NO ✗");
             ConsoleError "   ERROR: Phantom wallet is not installed. Please install it from https://phantom.app/"])%list.
    split.
    + rewrite <- !app_assoc. reflexivity.
    + rewrite !calls_app, Hdbg. reflexivity.
  - destruct (run_isPhantomInstalled a p w Hw) as (new & E & _).
    rewrite E, Hflag in Hno. discriminate Hno.
Qed.

(** X14.  The script's promise is never rejected: whatever the page holds and
    however the four provider calls settle (resolving, or rejecting with an
    error object), [runTests()] completes.  Where Phantom is installed,
    every rejection is caught and reported: the lines the script prints
    with [console.error] are, for each provider call that rejected, in
    order, the error's message and, unless the code is 4001, the
    unexpected-error line of that test (test 8 has none); the token request
    and [disconnect()] are made, and can fail, only if the provider reports
    a session after the first attempt. *)
Theorem runTests_never_rejects (c1 c2 c3 : nat)
    (first : Turn ConnectResponse) (watch bye : Turn unit) (again : Turn ConnectResponse)
    (w : World) :
  fst (phantomWalletTest.runTests c1 c2 c3 first watch bye again w) = Normal tt /\
  forall a p,
    provider_at a p w ->
    Provider.isPhantom p = true ->
    errors (trace (snd (phantomWalletTest.runTests c1 c2 c3 first watch bye again w))) =
    (errors (trace w) ++
     reported first [ConsoleError "   Unexpected error during connection"] ++
     (if fst (leaves first (subscribed (phantomWalletTest.callbacks c1 c2 c3) p))
      then reported watch [ConsoleError "   Unexpected error during token add"] ++
           reported bye []
      else []) ++
     reported again [ConsoleError "   Unexpected error during connection"])%list.
Proof.
  split.
  - destruct (isPhantomInstalled_cases w) as [Hcase | (a & p & Hw & Hflag)].
    + destruct (runTests_aborts c1 c2 c3 first watch bye again w) as (new & R & _).
      * destruct (Hcase (trace w)) as (dbg & E & _).
        destruct w as [win h ad tr]. cbn [window heap this trace] in E.
        rewrite E. reflexivity.
      * rewrite R. reflexivity.
    + destruct (run_runTests a c1 c2 c3 first watch bye again p Hflag w Hw)
        as (new & R & _).
      rewrite R. reflexivity.
  - intros a p Hw Hflag.
    destruct (run_runTests a c1 c2 c3 first watch bye again p Hflag w Hw)
      as (new & R & Hnew).
    rewrite R. cbn [snd trace].
    rewrite errors_app, <- (errors_observed new), Hnew. f_equal.
    cbn [Provider.isConnected after]. settle_all.
Qed.

Lemma runTests_never_rejects_witness :
  errors (trace (snd (phantomWalletTest.runTests 1 2 3 (approves Addr123) refuses
                        complies declines (browser_with_wallet RemoveAllMatching)))) =
  [ConsoleError "   ERROR: The requested method and/or account has not been authorized by the user.";
   ConsoleError "   Unexpected error during token add";
   ConsoleError "   ERROR: User rejected the request."].
Proof.
  destruct (runTests_never_rejects 1 2 3 (approves Addr123) refuses complies declines
              (browser_with_wallet RemoveAllMatching)) as [_ H].
  rewrite (H 0 (wallet true false None RemoveAllMatching)).
  - reflexivity.
  - split; reflexivity.
  - reflexivity.
Defined.

(** X15.  Where Phantom is not detected, the script stops after test 1: its last
    line is the abort notice, no provider is touched and none is called. *)
Theorem runTests_aborts_without_wallet (c1 c2 c3 : nat)
    (first : Turn ConnectResponse) (watch bye : Turn unit) (again : Turn ConnectResponse)
    (w : World) :
  fst (PhantomWallet.isPhantomInstalled w) = Normal false ->
  let w' := snd (phantomWalletTest.runTests c1 c2 c3 first watch bye again w) in
  heap w' = heap w /\
  calls (trace w') = calls (trace w) /\
  last (trace w') = Some (ConsoleLog (phantomWalletTest.nl ++ "=== TESTS ABORTED ===")).
Proof.
  intros Hno.
  destruct (runTests_aborts c1 c2 c3 first watch bye again w Hno) as (new & R & Hnew).
  cbn zeta. rewrite R. cbn [snd heap trace]. repeat split.
  - rewrite !calls_app, Hnew. cbn. apply app_nil_r.
  - rewrite app_assoc. apply last_snoc.
Qed.

Lemma runTests_aborts_without_wallet_witness :
  let w' := snd (phantomWalletTest.runTests 1 2 3 (approves Addr123) complies
                   ends_session (approves Addr123) browser_with_unflagged_object) in
  heap w' = heap browser_with_unflagged_object /\
  calls (trace w') = calls (trace browser_with_unflagged_object) /\
  last (trace w') = Some (ConsoleLog (phantomWalletTest.nl ++ "=== TESTS ABORTED ===")).
Proof.
  apply (runTests_aborts_without_wallet 1 2 3 (approves Addr123) complies
           ends_session (approves Addr123) browser_with_unflagged_object).
  vm_compute. reflexivity.
Defined.

(** X16.  Where Phantom is installed, the script calls [connect()], then — only if
    the provider reports a session after that first attempt — asks it to
    watch the USDC mint and calls [disconnect()], and calls [connect()]
    again; it makes no other provider call. *)
Theorem runTests_call_sequence (c1 c2 c3 : nat)
    (first : Turn ConnectResponse) (watch bye : Turn unit) (again : Turn ConnectResponse)
    (w : World) (a : nat) (p : Provider.t) :
  provider_at a p w ->
  Provider.isPhantom p = true ->
  let w' := snd (phantomWalletTest.runTests c1 c2 c3 first watch bye again w) in
  let connected := fst (leaves first (subscribed (phantomWalletTest.callbacks c1 c2 c3) p)) in
  calls (trace w') =
  (calls (trace w) ++
   CallConnect a ::
   (if connected
    then [CallRequest a "wallet_watchAsset" "SPL"
            "EPjFWdd5AufqSSqeM2qN1xzybapC8G4wEGGkZwyTDt1v";
          CallDisconnect a]
    else []) ++ [CallConnect a])%list.
Proof.
  intros Hw Hflag.
  destruct (run_runTests a c1 c2 c3 first watch bye again p Hflag w Hw) as (new & R & Hnew).
  cbn zeta. rewrite R. cbn [snd trace].
  rewrite calls_app, <- (calls_observed new), Hnew. f_equal.
  cbn [Provider.isConnected after]. settle_all.
Qed.

Lemma runTests_call_sequence_witness :
  calls (trace (snd (phantomWalletTest.runTests 1 2 3 (approves Addr123) complies
                       ends_session declines (browser_with_wallet RemoveLastMatching)))) =
  [CallConnect 0;
   CallRequest 0 "wallet_watchAsset" "SPL" "EPjFWdd5AufqSSqeM2qN1xzybapC8G4wEGGkZwyTDt1v";
   CallDisconnect 0;
   CallConnect 0].
Proof.
  apply (runTests_call_sequence 1 2 3 (approves Addr123) complies ends_session declines
           (browser_with_wallet RemoveLastMatching) 0
           (wallet true false None RemoveLastMatching)).
  - split; reflexivity.
  - reflexivity.
Defined.

(** X17.  The script cleans up after itself: when it ends, every provider has the
    listeners it had before, under either removal discipline, the three
    arrow functions being new to the provider. *)
Theorem runTests_removes_its_listeners (c1 c2 c3 : nat)
    (first : Turn ConnectResponse) (watch bye : Turn unit) (again : Turn ConnectResponse)
    (w : World) (a : nat) (p : Provider.t) :
  provider_at a p w ->
  Provider.isPhantom p = true ->
  unknown_to (functions (phantomWalletTest.callbacks c1 c2 c3)) p = true ->
  Provider.listeners <$>
    heap (snd (phantomWalletTest.runTests c1 c2 c3 first watch bye again w)) =
  Provider.listeners <$> heap w.
Proof.
  intros Hw Hflag Hnew.
  destruct (run_runTests a c1 c2 c3 first watch bye again p Hflag w Hw) as (new & R & _).
  rewrite R. cbn [snd heap]. destruct Hw as [_ Hp].
  rewrite list_fmap_insert. apply list_insert_id.
  rewrite list_lookup_fmap, Hp. apply (f_equal Some). symmetry.
  rewrite unsubscribed_listeners.
  destruct (Provider.isConnected _);
    rewrite subscribed_listeners; unfold Provider.with_listeners, after;
    cbn [Provider.listeners Provider.removal];
    apply removals_undo_registrations, Hnew.
Qed.

Lemma runTests_removes_its_listeners_witness :
  Provider.listeners <$>
    heap (snd (phantomWalletTest.runTests 1 2 3 (approves Addr123) declines
                 ends_session declines
                 (Build_World (window (browser_with_wallet RemoveAllMatching))
                    [Provider.Build true false None [("connect", UserFn 7)]
                       RemoveAllMatching]
                    fresh_adapter []))) =
  [[("connect", UserFn 7)]].
Proof.
  apply (runTests_removes_its_listeners 1 2 3 (approves Addr123) declines
           ends_session declines
           (Build_World (window (browser_with_wallet RemoveAllMatching))
              [Provider.Build true false None [("connect", UserFn 7)] RemoveAllMatching]
              fresh_adapter [])
           0 (Provider.Build true false None [("connect", UserFn 7)] RemoveAllMatching)).
  - split; reflexivity.
  - reflexivity.
  - vm_compute. reflexivity.
Defined.
